(** * theguitarman scraper: a shallow embedding of [scraper.py]

    The script walks a paginated Blogger feed, and for every post writes
    [<out>/<year>/<folder>/index.md] and, when the post has comments,
    [<out>/<year>/<folder>/comments.md].

    Embedding choices.
    - A Python [str] is held as the Rocq [string] of its UTF-8 encoding, which
      is also what the script writes to its files ([encoding="utf-8"]).  The
      operations that look at characters rather than bytes ([str.strip],
      [s[:n]], [\d] in a pattern) go through [PyStr.chars], which cuts the
      bytes into characters, and decide by code point.
    - Where the language leaves a result to the interpreter and its platform,
      the embedding follows CPython 3.11 on Linux with glibc: [\d] matches the
      decimal digits of Unicode 14.0, and [strftime("%Y")] prints the year
      without zero fill.
    - [None]-able values are [option]s; dictionaries with a fixed set of keys
      ([entry], [link], [feed]) are records whose fields are [option]s
      ([None] = key absent).
    - The three third-party functions the script calls as black boxes
      ([feedparser.parse], [markdownify], [slugify]) and
      [datetime.fromisoformat] are parameters of the development.
    - Effects are explicit: a world holds the file tree and the chronological
      log of observable actions (prints, sleeps, feed requests); a computation
      either returns a value or raises a Python exception.
    - The file tree maps a path (its list of components) to a directory or a
      file with contents.  [os.makedirs] and [open(..., "w")] fail exactly where
      the operating system makes them fail on such a tree; a tree carries no
      permissions, links or quotas, and the failures these would add are not
      part of the embedding.
    - The [while url:] loop of [fetch_all_posts] has no bound in the source; it
      is embedded with a fuel argument counting page fetches. *)

From Stdlib Require Import Ascii String.
From stdpp Require Import gmap strings list pretty.

Local Open Scope string_scope.
Local Open Scope list_scope.
Local Open Scope nat_scope.

(* ===================================================================== *)
(** ** Python string primitives used by the script *)
(* ===================================================================== *)

Module PyStr.

(** In UTF-8 a character is one byte below [0x80], or a leading byte followed
    by one to three bytes of the form [10xxxxxx], which continue it. *)
Definition is_continuation (b : ascii) : bool :=
  let n := N_of_ascii b in ((0x80 <=? n) && (n <? 0xC0))%N.

Definition starts_with_continuation (c : string) : bool :=
  match c with
  | String b _ => is_continuation b
  | EmptyString => false
  end.

(** The characters of a string, in order, each as the bytes that encode
    it. *)
Fixpoint chars (s : string) : list string :=
  match s with
  | String b r =>
      match chars r with
      | c :: cs =>
          if starts_with_continuation c then String b c :: cs
          else String b EmptyString :: c :: cs
      | [] => [String b EmptyString]
      end
  | EmptyString => []
  end.

(** ["".join(cs)] *)
Definition implode (cs : list string) : string :=
  fold_right String.append EmptyString cs.

(** The six payload bits of a continuation byte. *)
Definition payload (b : ascii) : N := (N_of_ascii b mod 64)%N.

(** [ord(c)] of a character given by its bytes; [None] for bytes that are
    not the UTF-8 encoding of one character (a wrong leading byte, a byte
    that does not continue, an overlong form, a surrogate, a value past
    U+10FFFF). *)
Definition code_point (c : string) : option N :=
  match c with
  | String a EmptyString =>
      let a := N_of_ascii a in
      if (a <? 0x80)%N then Some a else None
  | String a (String b EmptyString) =>
      let a := N_of_ascii a in
      if ((0xC2 <=? a) && (a <? 0xE0))%N && is_continuation b
      then Some ((a - 0xC0) * 64 + payload b)%N
      else None
  | String a (String b (String c EmptyString)) =>
      let a := N_of_ascii a in
      let n := (((a - 0xE0) * 64 + payload b) * 64 + payload c)%N in
      if ((0xE0 <=? a) && (a <? 0xF0))%N
         && is_continuation b && is_continuation c
         && ((0x800 <=? n) && negb ((0xD800 <=? n) && (n <=? 0xDFFF)))%N
      then Some n
      else None
  | String a (String b (String c (String d EmptyString))) =>
      let a := N_of_ascii a in
      let n := ((((a - 0xF0) * 64 + payload b) * 64 + payload c) * 64
                + payload d)%N in
      if ((0xF0 <=? a) && (a <? 0xF5))%N
         && is_continuation b && is_continuation c && is_continuation d
         && ((0x10000 <=? n) && (n <=? 0x10FFFF))%N
      then Some n
      else None
  | _ => None
  end.

(** The code points for which [str.isspace] holds; [str.strip] removes
    exactly these. *)
Definition whitespace (n : N) : bool :=
  (((0x09 <=? n) && (n <=? 0x0D)) || ((0x1C <=? n) && (n <=? 0x20))
   || (n =? 0x85) || (n =? 0xA0) || (n =? 0x1680)
   || ((0x2000 <=? n) && (n <=? 0x200A))
   || (n =? 0x2028) || (n =? 0x2029) || (n =? 0x202F) || (n =? 0x205F)
   || (n =? 0x3000))%N.

Definition is_space (c : string) : bool :=
  match code_point c with
  | Some n => whitespace n
  | None => false
  end.

(** The first code point of each run of ten decimal digits (category [Nd])
    of the Unicode Character Database 14.0. *)
Definition decimal_digit_blocks : list N :=
  [0x30; 0x660; 0x6F0; 0x7C0; 0x966; 0x9E6; 0xA66; 0xAE6; 0xB66; 0xBE6;
   0xC66; 0xCE6; 0xD66; 0xDE6; 0xE50; 0xED0; 0xF20; 0x1040; 0x1090; 0x17E0;
   0x1810; 0x1946; 0x19D0; 0x1A80; 0x1A90; 0x1B50; 0x1BB0; 0x1C40; 0x1C50;
   0xA620; 0xA8D0; 0xA900; 0xA9D0; 0xA9F0; 0xAA50; 0xABF0; 0xFF10; 0x104A0;
   0x10D30; 0x11066; 0x110F0; 0x11136; 0x111D0; 0x112F0; 0x11450; 0x114D0;
   0x11650; 0x116C0; 0x11730; 0x118E0; 0x11950; 0x11C50; 0x11D50; 0x11DA0;
   0x16A60; 0x16AC0; 0x16B50; 0x1D7CE; 0x1D7D8; 0x1D7E2; 0x1D7EC; 0x1D7F6;
   0x1E140; 0x1E2F0; 0x1E950; 0x1FBF0]%N.

Definition decimal_digit (n : N) : bool :=
  existsb (fun lo => ((lo <=? n) && (n <? lo + 10))%N) decimal_digit_blocks.

(** What [\d] matches in a [str] pattern. *)
Definition is_digit (c : string) : bool :=
  match code_point c with
  | Some n => decimal_digit n
  | None => false
  end.

(** Whitespace characters dropped from the left end, and from the right
    end. *)
Fixpoint lstrip_chars (cs : list string) : list string :=
  match cs with
  | c :: r => if is_space c then lstrip_chars r else cs
  | [] => []
  end.

Fixpoint rstrip_chars (cs : list string) : list string :=
  match cs with
  | c :: r =>
      match rstrip_chars r with
      | [] => if is_space c then [] else [c]
      | r' => c :: r'
      end
  | [] => []
  end.

(** [s.strip()] *)
Definition strip (s : string) : string :=
  implode (rstrip_chars (lstrip_chars (chars s))).

(** [s[:n]] *)
Definition slice_to (n : nat) (s : string) : string :=
  implode (take n (chars s)).

(** Truthiness of a [str]: non-empty. *)
Definition truthy (s : string) : bool :=
  match s with EmptyString => false | String _ _ => true end.

(** [s.replace(c, by)] for a one-character pattern [c]. *)
Fixpoint replace_char (c : ascii) (by_ : string) (s : string) : string :=
  match s with
  | String a r =>
      if Ascii.eqb a c then by_ +:+ replace_char c by_ r
      else String a (replace_char c by_ r)
  | EmptyString => EmptyString
  end.

(** [s.zfill(w)] for a string of ASCII digits: what [%02d] does. *)
Definition zfill (w : nat) (s : string) : string :=
  String.concat "" (replicate (w - String.length s) "0") +:+ s.

(** [str(n)] for a non-negative [int]. *)
Definition of_nat (n : nat) : string := pretty n.

(** [sep.join(parts)], used to print a path. *)
Definition join (sep : string) (parts : list string) : string :=
  String.concat sep parts.

End PyStr.

(* ===================================================================== *)
(** ** [datetime] and [strftime] *)
(* ===================================================================== *)

Record datetime := mk_datetime {
  dt_year : nat;
  dt_month : nat;
  dt_day : nat;
  dt_hour : nat;
  dt_minute : nat;
  dt_second : nat;
  dt_utcoffset : option Z   (* minutes east of UTC; [None] for a naive value *)
}.


(** One [strftime] directive.  The script uses [%Y], [%m], [%d], [%H], [%M].
    CPython hands the format to the C library: glibc prints [%Y] as the plain
    decimal year (four digits from the year 1000 on, fewer before) and the
    other four zero-filled to two digits. *)
Definition strftime_directive (dt : datetime) (c : ascii) : option string :=
  if Ascii.eqb c "Y" then Some (PyStr.of_nat (dt_year dt))
  else if Ascii.eqb c "m" then Some (PyStr.zfill 2 (PyStr.of_nat (dt_month dt)))
  else if Ascii.eqb c "d" then Some (PyStr.zfill 2 (PyStr.of_nat (dt_day dt)))
  else if Ascii.eqb c "H" then Some (PyStr.zfill 2 (PyStr.of_nat (dt_hour dt)))
  else if Ascii.eqb c "M" then Some (PyStr.zfill 2 (PyStr.of_nat (dt_minute dt)))
  else None.

(** [dt.strftime(fmt)]: directives are expanded, every other character is
    copied. *)
Fixpoint strftime (dt : datetime) (fmt : string) : string :=
  match fmt with
  | String "%" (String c rest as tl) =>
      match strftime_directive dt c with
      | Some s => s +:+ strftime dt rest
      | None => String "%" (strftime dt tl)
      end
  | String a rest => String a (strftime dt rest)
  | EmptyString => EmptyString
  end.

(* ===================================================================== *)
(** ** Feed data, as [feedparser] hands it to the script *)
(* ===================================================================== *)

(** One element of [entry["content"]]. *)
Record ContentBlock := mk_block { block_value : option string }.

(** [entry["author_detail"]]. *)
Record AuthorDetail := mk_author { author_name : option string }.

(** A feed entry: a post of the blog feed or a comment of a comment feed.
    A field is [None] when the key is absent from the entry. *)
Record Entry := mk_entry {
  entry_id : option string;
  entry_title : option string;
  entry_published : option string;
  entry_content : option (list ContentBlock);
  entry_summary : option string;
  entry_author_detail : option AuthorDetail
}.

(** One element of [feed.feed["links"]]. *)
Record Link := mk_link { link_rel : option string; link_href : option string }.

(** What [feedparser.parse] returns. *)
Record Feed := mk_feed {
  feed_bozo : bool;
  feed_bozo_exception : string;
  feed_entries : list Entry;
  feed_links : option (list Link)
}.

(* ===================================================================== *)
(** ** Exceptions, the file tree, the world *)
(* ===================================================================== *)

(** A path is the list of its components, relative to the working
    directory; [os.path.join] appends components. *)
Abbreviation path := (list string) (only parsing).

Definition os_path_join (base : path) (parts : list string) : path := base ++ parts.

(** The string Python prints for a path. *)
Definition path_str (p : path) : string := PyStr.join "/" p.

(** The exceptions (all subclasses of [Exception]) that can arise. *)
Inductive exn :=
| FileExistsError (p : path)
| NotADirectoryError (p : path)
| IsADirectoryError (p : path)
| FileNotFoundError (p : path)
| FeedparserError (msg : string).

(** [str(e)] *)
Definition exn_str (e : exn) : string :=
  match e with
  | FileExistsError p => "[Errno 17] File exists: '" +:+ path_str p +:+ "'"
  | NotADirectoryError p => "[Errno 20] Not a directory: '" +:+ path_str p +:+ "'"
  | IsADirectoryError p => "[Errno 21] Is a directory: '" +:+ path_str p +:+ "'"
  | FileNotFoundError p =>
      "[Errno 2] No such file or directory: '" +:+ path_str p +:+ "'"
  | FeedparserError msg => msg
  end.

Inductive node :=
| Dir
| File (data : string).

Abbreviation tree := (gmap (list string) node) (only parsing).

(** Observable actions other than file writes, in the order they happen. *)
Inductive event :=
| EPrint (line : string)
| ESleep (ms : nat)
| EFetch (url : string).

Record World := mk_world {
  fs : gmap (list string) node;
  log : list event
}.

Module FS.

(** The working directory itself always exists. *)
Definition stat (t : tree) (p : path) : option node :=
  match p with
  | [] => Some Dir
  | _ => t !! p
  end.

Definition parent (p : path) : path := removelast p.

(** Creates the missing directories along [pre ++ rest], walking down from
    [pre]; a component that exists as a file makes the call fail. *)
Fixpoint makedirs_from (pre : path) (rest : list string) (t : tree)
  : exn + tree :=
  match rest with
  | [] => inr t
  | c :: rest' =>
      let p := pre ++ [c] in
      match t !! p with
      | Some Dir => makedirs_from p rest' t
      | Some (File _) =>
          inl (match rest' with
               | [] => FileExistsError p
               | c' :: _ => NotADirectoryError (p ++ [c'])
               end)
      | None => makedirs_from p rest' (<[p := Dir]> t)
      end
  end.

(** [os.makedirs(p, exist_ok=True)] *)
Definition makedirs (p : path) (t : tree) : exn + tree := makedirs_from [] p t.

(** [open(p, "w")]: the file is created or truncated. *)
Definition open_w (p : path) (t : tree) : exn + tree :=
  match stat t (parent p) with
  | None => inl (FileNotFoundError p)
  | Some (File _) => inl (NotADirectoryError p)
  | Some Dir =>
      match stat t p with
      | Some Dir => inl (IsADirectoryError p)
      | _ => inr (<[p := File ""]> t)
      end
  end.

(** [f.write(s)] on a file opened at [p]: the text is appended to what the
    handle has written so far. *)
Definition write (p : path) (s : string) (t : tree) : tree :=
  match t !! p with
  | Some (File d) => <[p := File (d +:+ s)]> t
  | _ => t
  end.

End FS.

(* ===================================================================== *)
(** ** Computations: state, log and exceptions *)
(* ===================================================================== *)

Inductive Result (A : Type) :=
| Returned (a : A)
| Raised (e : exn).
Arguments Returned {A} a.
Arguments Raised {A} e.

Definition M (A : Type) : Type := World -> Result A * World.

Definition ret {A} (a : A) : M A := fun w => (Returned a, w).

Definition bind {A B} (m : M A) (k : A -> M B) : M B :=
  fun w =>
    match m w with
    | (Returned a, w') => k a w'
    | (Raised e, w') => (Raised e, w')
    end.

Definition raise {A} (e : exn) : M A := fun w => (Raised e, w).

(** [try: m  except Exception as e: h e] *)
Definition try_except {A} (m : M A) (h : exn -> M A) : M A :=
  fun w =>
    match m w with
    | (Returned a, w') => (Returned a, w')
    | (Raised e, w') => h e w'
    end.

Declare Scope py_scope.
Delimit Scope py_scope with py.
Notation "x <- m ;; k" := (bind m (fun x => k))
  (at level 100, m at next level, right associativity) : py_scope.
Notation "m ;; k" := (bind m (fun _ => k))
  (at level 100, right associativity) : py_scope.
Local Open Scope py_scope.

Definition emit (ev : event) : M unit :=
  fun w => (Returned tt, mk_world (fs w) (log w ++ [ev])).

Definition print (line : string) : M unit := emit (EPrint line).

Definition time_sleep (ms : nat) : M unit := emit (ESleep ms).

(** Runs a fallible operation on the file tree. *)
Definition fs_try (op : gmap (list string) node -> exn + gmap (list string) node)
  : M unit :=
  fun w =>
    match op (fs w) with
    | inl e => (Raised e, w)
    | inr t => (Returned tt, mk_world t (log w))
    end.

Definition os_makedirs (p : path) : M unit := fs_try (FS.makedirs p).
Definition open_w (p : path) : M unit := fs_try (FS.open_w p).
Definition f_write (p : path) (s : string) : M unit :=
  fun w => (Returned tt, mk_world (FS.write p s (fs w)) (log w)).

(** Line feed. *)
Definition LF : string := String (ascii_of_nat 10) EmptyString.

(* ===================================================================== *)
(** ** A small feed to run the script on *)
(* ===================================================================== *)

Module Sample.

(** Stand-ins for the library functions: timestamps of the sample feed are
    recognised, markdown rendering wraps its input, slugs replace spaces and
    are cut at the maximum length. *)
Definition fromisoformat (s : string) : option datetime :=
  if String.eqb s "2009-03-07T21:05:00+00:00"
  then Some (mk_datetime 2009 3 7 21 5 0 (Some 0%Z))
  else if String.eqb s "2010-01-02T03:04:00+00:00"
  then Some (mk_datetime 2010 1 2 3 4 0 (Some 0%Z))
  else None.

Definition md (html : string) : string := "md(" +:+ html +:+ ")".

Definition slugify (text : string) (max_length : nat) : string :=
  PyStr.slice_to max_length (PyStr.replace_char " " "-" text).

Definition post1 : Entry :=
  mk_entry (Some "tag:blogger.com,1999:blog-1.post-42") (Some " Hello World ")
    (Some "2009-03-07T21:05:00Z") (Some [mk_block (Some "<p>Hi</p>")])
    (Some "summary") None.

(** A post whose timestamp does not parse. *)
Definition undated_post : Entry :=
  mk_entry (Some "tag:blogger.com,1999:blog-1.post-43") (Some "Lost")
    (Some "yesterday") None (Some "text") None.

Definition comment1 : Entry :=
  mk_entry None None (Some "2010-01-02T03:04:00Z")
    (Some [mk_block (Some "<b>first</b>")]) None (Some (mk_author (Some "Ann"))).

(** A comment with no author and a timestamp that does not parse. *)
Definition comment2 : Entry :=
  mk_entry None None (Some "garbage") None (Some "  second ") None.

Definition start_url : string :=
  "https://theguitarman.blogspot.com/feeds/posts/default?max-results=25".

(** A one-page blog: two posts, the first with two comments. *)
Definition blog (url : string) : exn + Feed :=
  if String.eqb url start_url
  then inr (mk_feed false "" [post1; undated_post]
              (Some [mk_link (Some "self") (Some start_url)]))
  else if String.eqb url "https://theguitarman.blogspot.com/feeds/42/comments/default"
  then inr (mk_feed false "" [comment1; comment2] None)
  else inl (FeedparserError "connection refused").

(** A blog with no posts at all. *)
Definition empty_blog (url : string) : exn + Feed :=
  inr (mk_feed false "" [] None).

(** A comment feed flagged as malformed from which one entry was salvaged. *)
Definition salvaged_comments (url : string) : exn + Feed :=
  inr (mk_feed true "not well-formed (invalid token)" [comment1] None).

(** The [k]-th post of a long blog. *)
Definition numbered (k : nat) : Entry :=
  mk_entry (Some ("post-" +:+ PyStr.of_nat k)) None None None None None.

(** Three pages of 25, 25 and 10 posts; pages 1 and 2 carry a "next" link. *)
Definition page1 : Feed :=
  mk_feed false "" (map numbered (seq 0 25))
    (Some [mk_link (Some "self") (Some start_url);
           mk_link (Some "next") (Some "page2")]).

Definition page2 : Feed :=
  mk_feed false "" (map numbered (seq 25 25))
    (Some [mk_link (Some "next") (Some "page3")]).

Definition page3 : Feed :=
  mk_feed false "" (map numbered (seq 50 10))
    (Some [mk_link (Some "self") (Some "page3")]).

Definition three_pages (url : string) : exn + Feed :=
  if String.eqb url start_url then inr page1
  else if String.eqb url "page2" then inr page2
  else if String.eqb url "page3" then inr page3
  else inl (FeedparserError "connection refused").

(** A second dated post, without identifier (hence without comments). *)
Definition post2 : Entry :=
  mk_entry None (Some "Later") (Some "2010-01-02T03:04:00Z") None
    (Some "<i>bye</i>") None.

(** A one-page blog of two dated posts. *)
Definition two_posts (url : string) : exn + Feed :=
  if String.eqb url start_url
  then inr (mk_feed false "" [post1; post2] None)
  else if String.eqb url "https://theguitarman.blogspot.com/feeds/42/comments/default"
  then inr (mk_feed false "" [comment1; comment2] None)
  else inl (FeedparserError "connection refused").

(** A feed whose only page names itself as the next page. *)
Definition looping (url : string) : exn + Feed :=
  inr (mk_feed false "" [post1] (Some [mk_link (Some "next") (Some start_url)])).

(** A feed whose second page cannot be fetched at all. *)
Definition broken_second_page (url : string) : exn + Feed :=
  if String.eqb url start_url then inr page1
  else inl (FeedparserError "connection reset").

(** A feed whose first page comes back flagged and empty. *)
Definition failed_first_page (url : string) : exn + Feed :=
  inr (mk_feed true "timed out" [] None).

(** A one-page blog whose only post has no usable timestamp. *)
Definition undated_blog (url : string) : exn + Feed :=
  inr (mk_feed false "" [undated_post] None).

(** A working directory in which [posts] itself is a regular file. *)
Definition w_root_blocked : World := mk_world (<[["posts"] := File "x"]> ∅) [].

(** A post that resolves to the folder of [post1] and has no comments. *)
Definition post1_again : Entry :=
  mk_entry None (Some "Hello World") (Some "2009-03-07T21:05:00Z") None
    (Some "again") None.

(** A blog whose comment feeds cannot be reached. *)
Definition unreachable_comments (url : string) : exn + Feed :=
  if String.eqb url start_url
  then inr (mk_feed false "" [post1] None)
  else inl (FeedparserError "connection refused").

(** Three characters outside ASCII, by their UTF-8 bytes: the no-break space
    U+00A0, the letter e with acute accent U+00E9, and the Arabic-Indic
    digit three U+0663. *)
Definition nbsp : string :=
  string_of_list_ascii (map ascii_of_nat [194; 160]).

Definition e_acute : string :=
  string_of_list_ascii (map ascii_of_nat [195; 169]).

Definition arabic_indic_three : string :=
  string_of_list_ascii (map ascii_of_nat [217; 163]).

(** An empty working directory and an empty log. *)
Definition w0 : World := mk_world ∅ [].

(** A working directory in which [posts/2009] is a regular file. *)
Definition w_blocked : World := mk_world (<[["posts"; "2009"] := File "x"]> ∅) [].

End Sample.


(* ===================================================================== *)
(** ** The script *)
(* ===================================================================== *)

Definition BLOG_FEED_URL : string :=
  "https://theguitarman.blogspot.com/feeds/posts/default".
Definition OUTPUT_DIR : path := ["posts"].
Definition MAX_RESULTS_PER_PAGE : nat := 25.
(** [REQUEST_DELAY = 0.5] seconds, in milliseconds. *)
Definition REQUEST_DELAY : nat := 500.

(** The marker printed before a written folder (the bytes of the source). *)
Definition ARROW : string :=
  string_of_list_ascii
    (map ascii_of_nat [195; 162; 226; 128; 160; 226; 128; 153]).

(** What [main] hands back to its caller. *)
Inductive pyval :=
| PyNone
| PyInt (n : Z).

(** [re.search(r"post-(\d+)", s)]: the digits of the leftmost match.  [\d+]
    is greedy: it takes the characters from where it starts up to the first
    one that is not a decimal digit. *)
Fixpoint digit_prefix (cs : list string) : list string :=
  match cs with
  | c :: r => if PyStr.is_digit c then c :: digit_prefix r else []
  | [] => []
  end.

Definition take_digits (s : string) : string :=
  PyStr.implode (digit_prefix (PyStr.chars s)).

Definition match_post_here (s : string) : option string :=
  match s with
  | String "p" (String "o" (String "s" (String "t" (String "-" r)))) =>
      match take_digits r with
      | EmptyString => None
      | d => Some d
      end
  | _ => None
  end.

Fixpoint re_search_post (s : string) : option string :=
  match match_post_here s with
  | Some d => Some d
  | None =>
      match s with
      | String _ r => re_search_post r
      | EmptyString => None
      end
  end.

Definition extract_post_id (entry : Entry) : option string :=
  let entry_id := default "" (entry_id entry) in
  re_search_post entry_id.

(** The first link whose relation is ["next"] decides the next URL (lines
    33-37); its [href] may itself be absent. *)
Definition is_next (l : Link) : bool :=
  match link_rel l with
  | Some r => String.eqb r "next"
  | None => false
  end.

Definition next_url (feed : Feed) : option string :=
  match List.find is_next (default [] (feed_links feed)) with
  | Some l => link_href l
  | None => None
  end.

(** Truthiness of a value that is a [str] or [None]. *)
Definition truthy_opt (u : option string) : bool :=
  match u with
  | Some s => PyStr.truthy s
  | None => false
  end.

(** [feed.bozo and not feed.entries] *)
Definition bozo_and_empty (feed : Feed) : bool :=
  feed_bozo feed && match feed_entries feed with [] => true | _ => false end.

(** The content of an entry (lines 101-106, and again 141-146 for a
    comment): the first content block when the list is present and
    non-empty, else the summary when present, else the empty string. *)
Definition entry_html (entry : Entry) : string :=
  match entry_content entry with
  | Some (b :: _) => default "" (block_value b)
  | _ =>
      match entry_summary entry with
      | Some s => s
      | None => ""
      end
  end.

(** How one turn of [while url:] ends. *)
Inductive loop_ctl :=
| Break (posts : list Entry)
| Next (url : option string) (posts : list Entry).

Section Scraper.

(** [feedparser.parse(url)]: raises, or returns a feed. *)
Variable feedparser_parse : string -> exn + Feed.
(** [datetime.fromisoformat(s)]: [None] stands for [ValueError]. *)
Variable fromisoformat : string -> option datetime.
(** [markdownify(html, heading_style="ATX", strip=["script", "style"])],
    taken to return on every input. *)
Variable md : string -> string.
(** [slugify(text, max_length=n)], taken to return on every input. *)
Variable slugify : string -> nat -> string.

Definition parse (url : string) : M Feed :=
  emit (EFetch url) ;;
  match feedparser_parse url with
  | inl e => raise e
  | inr feed => ret feed
  end.

(** One turn of the loop of [fetch_all_posts] (lines 23-40). *)
Definition fetch_page (url : string) (posts : list Entry) : M loop_ctl :=
  print ("Fetching: " +:+ url) ;;
  feed <- parse url ;;
  if bozo_and_empty feed then
    print ("Error fetching feed: " +:+ feed_bozo_exception feed) ;;
    ret (Break posts)
  else
    let posts := posts ++ feed_entries feed in
    print ("  Found " +:+ PyStr.of_nat (length (feed_entries feed))
           +:+ " entries (total: " +:+ PyStr.of_nat (length posts) +:+ ")") ;;
    let url := next_url feed in
    (if truthy_opt url then time_sleep REQUEST_DELAY else ret tt) ;;
    ret (Next url posts).

(** [while url: ...]; [None] when [fuel] page fetches were not enough. *)
Fixpoint while_url (fuel : nat) (url : option string) (posts : list Entry)
  (w : World) : option (Result (list Entry) * World) :=
  if truthy_opt url then
    match fuel with
    | O => None
    | S fuel' =>
        match fetch_page (default "" url) posts w with
        | (Returned (Break posts'), w') => Some (Returned posts', w')
        | (Returned (Next url' posts'), w') => while_url fuel' url' posts' w'
        | (Raised e, w') => Some (Raised e, w')
        end
    end
  else Some (Returned posts, w).

Definition fetch_all_posts (fuel : nat) (w : World)
  : option (Result (list Entry) * World) :=
  let posts := [] in
  let url := BLOG_FEED_URL +:+ "?max-results=" +:+ PyStr.of_nat MAX_RESULTS_PER_PAGE in
  while_url fuel (Some url) posts w.

Definition fetch_comments (post_id : option string) : M (list Entry) :=
  if negb (truthy_opt post_id) then ret []
  else
    let url := "https://theguitarman.blogspot.com/feeds/"
               +:+ default "" post_id +:+ "/comments/default" in
    try_except
      (feed <- parse url ;;
       if bozo_and_empty feed then ret []
       else ret (feed_entries feed))
      (fun e =>
         print ("  Error fetching comments for " +:+ default "" post_id
                +:+ ": " +:+ exn_str e) ;;
         ret []).

Definition parse_datetime (date_string : string) : option datetime :=
  fromisoformat (PyStr.replace_char "Z" "+00:00" date_string).

Definition generate_folder_name (dt : datetime) (title : string) : string :=
  let date_prefix := strftime dt "%Y-%m-%d-%H-%M" in
  if PyStr.truthy title && PyStr.truthy (PyStr.strip title) then
    let slug := slugify title 50 in
    date_prefix +:+ "-" +:+ slug
  else date_prefix.

Definition html_to_markdown (html_content : option string) : string :=
  match html_content with
  | None => ""
  | Some h => if PyStr.truthy h then md h else ""
  end.

Definition format_comment_date (date_string : string) : string :=
  match parse_datetime date_string with
  | Some dt => strftime dt "%Y-%m-%d %H:%M"
  | None => date_string
  end.

(** The body of [for i, comment in enumerate(comments)] (lines 139-156),
    writing to the open [comments.md] handle at [f]; [n] is [len(comments)]. *)
Definition write_comment (f : path) (n i : nat) (comment : Entry) : M unit :=
  let author :=
    match entry_author_detail comment with
    | Some ad => default "Anonymous" (author_name ad)
    | None => "Anonymous"
    end in
  let comment_date := default "" (entry_published comment) in
  let comment_content := entry_html comment in
  let formatted_date := format_comment_date comment_date in
  let comment_md := html_to_markdown (Some comment_content) in
  f_write f ("## " +:+ author +:+ " - " +:+ formatted_date +:+ LF +:+ LF) ;;
  f_write f (PyStr.strip comment_md) ;;
  f_write f (LF +:+ LF) ;;
  if i <? n - 1 then f_write f ("---" +:+ LF +:+ LF) else ret tt.

Fixpoint for_comments (f : path) (n i : nat) (comments : list Entry) : M unit :=
  match comments with
  | [] => ret tt
  | comment :: rest =>
      write_comment f n i comment ;;
      for_comments f n (S i) rest
  end.

Definition process_post (entry : Entry) (output_base : path) : M (option path) :=
  let title := PyStr.strip (default "" (entry_title entry)) in
  let published := default "" (entry_published entry) in
  let content := entry_html entry in
  match parse_datetime published with
  | None =>
      print ("  Skipping post with invalid date: " +:+ published) ;;
      ret None
  | Some dt =>
      let folder_name := generate_folder_name dt title in
      let year := strftime dt "%Y" in
      let folder_path := os_path_join output_base [year; folder_name] in
      os_makedirs folder_path ;;
      let markdown_content := html_to_markdown (Some content) in
      let index_path := os_path_join folder_path ["index.md"] in
      open_w index_path ;;
      (if PyStr.truthy title then f_write index_path ("# " +:+ title +:+ LF +:+ LF)
       else ret tt) ;;
      f_write index_path (PyStr.strip markdown_content) ;;
      f_write index_path LF ;;
      let post_id := extract_post_id entry in
      (if truthy_opt post_id then
         time_sleep REQUEST_DELAY ;;
         comments <- fetch_comments post_id ;;
         match comments with
         | [] => ret tt
         | _ :: _ =>
             let comments_path := os_path_join folder_path ["comments.md"] in
             open_w comments_path ;;
             f_write comments_path ("# Comments" +:+ LF +:+ LF) ;;
             for_comments comments_path (length comments) 0 comments
         end
       else ret tt) ;;
      ret (Some folder_path)
  end.

(** The body of [for i, entry in enumerate(posts, 1)] (lines 174-182);
    [n] is [len(posts)]. *)
Definition handle_post (n i : nat) (entry : Entry) : M unit :=
  let title := PyStr.slice_to 50 (default "(untitled)" (entry_title entry)) in
  print ("[" +:+ PyStr.of_nat i +:+ "/" +:+ PyStr.of_nat n +:+ "] " +:+ title) ;;
  try_except
    (folder <- process_post entry OUTPUT_DIR ;;
     match folder with
     | Some p =>
         if PyStr.truthy (path_str p) then
           print ("  " +:+ ARROW +:+ " " +:+ path_str p)
         else ret tt
     | None => ret tt
     end)
    (fun e => print ("  Error: " +:+ exn_str e)).

Fixpoint for_posts (n i : nat) (posts : list Entry) : M unit :=
  match posts with
  | [] => ret tt
  | entry :: rest =>
      handle_post n i entry ;;
      for_posts n (S i) rest
  end.

(** [main] from line 164 on, once [fetch_all_posts] has returned [posts]. *)
Definition main_after_fetch (posts : list Entry) : M pyval :=
  print (LF +:+ "Total posts found: " +:+ PyStr.of_nat (length posts)) ;;
  match posts with
  | [] =>
      print "No posts found. Exiting." ;;
      ret PyNone
  | _ :: _ =>
      os_makedirs OUTPUT_DIR ;;
      print (LF +:+ "Processing posts...") ;;
      for_posts (length posts) 1 posts ;;
      print (LF +:+ "Done! Posts saved to ./" +:+ path_str OUTPUT_DIR +:+ "/") ;;
      ret PyNone
  end.

Definition main (fuel : nat) (w : World) : option (Result pyval * World) :=
  match print "Fetching all posts from the blog..." w with
  | (_, w1) =>
      match fetch_all_posts fuel w1 with
      | None => None
      | Some (Raised e, w2) => Some (Raised e, w2)
      | Some (Returned posts, w2) => Some (main_after_fetch posts w2)
      end
  end.

(* --------------------------------------------------------------------- *)
(** *** What the documents are meant to contain *)
(* --------------------------------------------------------------------- *)

(** The fields a post is processed from. *)
Definition post_title (entry : Entry) : string :=
  PyStr.strip (default "" (entry_title entry)).

Definition post_published (entry : Entry) : string :=
  default "" (entry_published entry).

(** The author shown for a comment. *)
Definition comment_author (comment : Entry) : string :=
  match entry_author_detail comment with
  | Some ad => default "Anonymous" (author_name ad)
  | None => "Anonymous"
  end.

(** The trimmed markdown rendering of an entry's content. *)
Definition entry_markdown (entry : Entry) : string :=
  PyStr.strip (html_to_markdown (Some (entry_html entry))).

(** The post document as the specification words it: an optional
    [# <title>] heading followed by a blank line, then the trimmed markdown
    body, then one newline. *)
Definition spec_post_document (entry : Entry) : string :=
  (if PyStr.truthy (post_title entry)
   then "# " +:+ post_title entry +:+ LF +:+ LF
   else "")
  +:+ entry_markdown entry +:+ LF.

(** One comment as the specification words it: a [## <author> - <date>]
    subheading, a blank line, the rendered markdown, a blank line. *)
Definition spec_comment_block (comment : Entry) : string :=
  "## " +:+ comment_author comment +:+ " - "
  +:+ format_comment_date (default "" (entry_published comment)) +:+ LF +:+ LF
  +:+ entry_markdown comment +:+ LF +:+ LF.

Definition spec_separator : string := "---" +:+ LF +:+ LF.

(** Blocks in order, a separator between consecutive blocks and none after
    the last. *)
Fixpoint spec_comment_blocks (comments : list Entry) : string :=
  match comments with
  | [] => ""
  | [c] => spec_comment_block c
  | c :: rest => spec_comment_block c +:+ spec_separator +:+ spec_comment_blocks rest
  end.

Definition spec_comments_document (comments : list Entry) : string :=
  "# Comments" +:+ LF +:+ LF +:+ spec_comment_blocks comments.

(** What the document holds before the block of a comment, the comments
    [before] being those that precede it: each of their blocks followed by a
    separator. *)
Definition blocks_before (before : list Entry) : string :=
  PyStr.implode (map (fun c => spec_comment_block c +:+ spec_separator) before).

(** What the document holds after the block of a comment, the comments
    [after] being those that follow it: nothing when there are none, else a
    separator and their blocks. *)
Definition blocks_after (after : list Entry) : string :=
  match after with
  | [] => ""
  | _ :: _ => spec_separator +:+ spec_comment_blocks after
  end.

(** The text the loop of lines 138-156 writes for the comments from
    position [i] on, [n] being the number of comments. *)
Fixpoint comments_text (n i : nat) (comments : list Entry) : string :=
  match comments with
  | [] => ""
  | c :: rest =>
      spec_comment_block c
      +:+ (if i <? n - 1 then spec_separator else "")
      +:+ comments_text n (S i) rest
  end.

(** The URL of a post's comment feed, and the comments fetched for it. *)
Definition comments_url (post_id : option string) : string :=
  "https://theguitarman.blogspot.com/feeds/"
  +:+ default "" post_id +:+ "/comments/default".

Definition fetched_comments (post_id : option string) : list Entry :=
  if truthy_opt post_id then
    match feedparser_parse (comments_url post_id) with
    | inl _ => []
    | inr feed => feed_entries feed
    end
  else [].

(** Where a dated post goes. *)
Definition post_folder (output_base : path) (dt : datetime) (entry : Entry) : path :=
  os_path_join output_base
    [strftime dt "%Y"; generate_folder_name dt (post_title entry)].

Definition index_path (folder : path) : path := os_path_join folder ["index.md"].
Definition comments_path (folder : path) : path := os_path_join folder ["comments.md"].

(** What [fetch_comments(post_id)] adds to the log when it makes its
    request. *)
Definition fetch_events (post_id : option string) : list event :=
  EFetch (comments_url post_id)
  :: match feedparser_parse (comments_url post_id) with
     | inl e =>
         [EPrint ("  Error fetching comments for " +:+ default "" post_id
                  +:+ ": " +:+ exn_str e)]
     | inr _ => []
     end.

(** What [time.sleep(REQUEST_DELAY)] followed by [fetch_comments(post_id)]
    adds to the log. *)
Definition comment_events (post_id : option string) : list event :=
  ESleep REQUEST_DELAY :: fetch_events post_id.

(** [process_post] on a post whose timestamp parsed to [dt], in closed form:
    each failure point of the file tree, and what has been written when it
    is reached. *)
Definition dated_post_run (entry : Entry) (output_base : path) (dt : datetime)
  (w : World) : Result (option path) * World :=
  let folder := post_folder output_base dt entry in
  match FS.makedirs folder (fs w) with
  | inl e => (Raised e, w)
  | inr t1 =>
      match FS.open_w (index_path folder) t1 with
      | inl e => (Raised e, mk_world t1 (log w))
      | inr _ =>
          let t2 := <[index_path folder := File (spec_post_document entry)]> t1 in
          let post_id := extract_post_id entry in
          if truthy_opt post_id then
            let lg := log w ++ comment_events post_id in
            match fetched_comments post_id with
            | [] => (Returned (Some folder), mk_world t2 lg)
            | _ :: _ =>
                match FS.open_w (comments_path folder) t2 with
                | inl e => (Raised e, mk_world t2 lg)
                | inr _ =>
                    (Returned (Some folder),
                     mk_world
                       (<[comments_path folder :=
                            File (spec_comments_document (fetched_comments post_id))]> t2)
                       lg)
                end
            end
          else (Returned (Some folder), mk_world t2 (log w))
      end
  end.

(** The URL [fetch_all_posts] starts from (line 20). *)
Definition start_url : string :=
  BLOG_FEED_URL +:+ "?max-results=" +:+ PyStr.of_nat MAX_RESULTS_PER_PAGE.

(** One turn of the pagination loop in closed form: how it ends, and what it
    adds to the log. *)
Definition page_result (url : string) (posts : list Entry) : Result loop_ctl :=
  match feedparser_parse url with
  | inl e => Raised e
  | inr feed =>
      if bozo_and_empty feed then Returned (Break posts)
      else Returned (Next (next_url feed) (posts ++ feed_entries feed))
  end.

Definition page_events (url : string) (posts : list Entry) : list event :=
  [EPrint ("Fetching: " +:+ url); EFetch url]
  ++ match feedparser_parse url with
     | inl _ => []
     | inr feed =>
         if bozo_and_empty feed then
           [EPrint ("Error fetching feed: " +:+ feed_bozo_exception feed)]
         else
           EPrint ("  Found " +:+ PyStr.of_nat (length (feed_entries feed))
                   +:+ " entries (total: "
                   +:+ PyStr.of_nat (length (posts ++ feed_entries feed)) +:+ ")")
           :: (if truthy_opt (next_url feed) then [ESleep REQUEST_DELAY] else [])
     end.

(** The pagination loop as a function of the feed alone: its outcome and the
    events it adds to the log. *)
Fixpoint walk (fuel : nat) (url : option string) (posts : list Entry)
  : option (Result (list Entry) * list event) :=
  if truthy_opt url then
    match fuel with
    | O => None
    | S fuel' =>
        let evs := page_events (default "" url) posts in
        match page_result (default "" url) posts with
        | Returned (Break posts') => Some (Returned posts', evs)
        | Returned (Next url' posts') =>
            match walk fuel' url' posts' with
            | Some (r, evs') => Some (r, evs ++ evs')
            | None => None
            end
        | Raised e => Some (Raised e, evs)
        end
    end
  else Some (Returned posts, []).

(** The feed requests and the sleeps of a log, in order. *)
Definition is_request (ev : event) : bool :=
  match ev with
  | EPrint _ => false
  | ESleep _ | EFetch _ => true
  end.

Definition is_sleep (ev : event) : bool :=
  match ev with
  | ESleep _ => true
  | _ => false
  end.

(** A feed of finitely many pages, as the walker meets it from [url] on:
    every page but the last is usable and links to the next one; the last
    page has no usable "next" link, or is a failed fetch without entries. *)
Inductive feed_chain : string -> list Feed -> Prop :=
| chain_last (url : string) (feed : Feed) :
    PyStr.truthy url = true ->
    feedparser_parse url = inr feed ->
    bozo_and_empty feed = true \/ truthy_opt (next_url feed) = false ->
    feed_chain url [feed]
| chain_next (url url' : string) (feed : Feed) (rest : list Feed) :
    PyStr.truthy url = true ->
    feedparser_parse url = inr feed ->
    bozo_and_empty feed = false ->
    next_url feed = Some url' ->
    feed_chain url' rest ->
    feed_chain url (feed :: rest).

(** The requests and sleeps the walker is meant to make on such a feed: one
    request per page, one sleep between consecutive requests. *)
Fixpoint spec_requests (url : string) (pages : list Feed) : list event :=
  match pages with
  | [] => []
  | [_] => [EFetch url]
  | feed :: rest =>
      EFetch url :: ESleep REQUEST_DELAY
      :: spec_requests (default "" (next_url feed)) rest
  end.


(** The progress line of a post, and what the per-post boundary of [main]
    prints once [process_post] has returned or raised. *)
Definition post_header (n i : nat) (entry : Entry) : event :=
  EPrint ("[" +:+ PyStr.of_nat i +:+ "/" +:+ PyStr.of_nat n +:+ "] "
          +:+ PyStr.slice_to 50 (default "(untitled)" (entry_title entry))).

Definition outcome_events (res : Result (option path)) : list event :=
  match res with
  | Returned (Some p) =>
      if PyStr.truthy (path_str p)
      then [EPrint ("  " +:+ ARROW +:+ " " +:+ path_str p)]
      else []
  | Returned None => []
  | Raised e => [EPrint ("  Error: " +:+ exn_str e)]
  end.


(* --------------------------------------------------------------------- *)
(** *** What a run writes, as a map laid over the initial tree *)
(* --------------------------------------------------------------------- *)

Definition is_file (o : option node) : bool :=
  match o with
  | Some (File _) => true
  | _ => false
  end.

Definition is_dir (o : option node) : bool :=
  match o with
  | Some Dir => true
  | _ => false
  end.

(** Two trees that block the same operations: on paths of at most [depth]
    components (where the script makes directories) they have regular files
    at the same places, and on longer paths (where it writes files) they
    have directories at the same places. *)
Definition same_shape (depth : nat) (t t' : gmap (list string) node) : Prop :=
  forall q : path,
    (length q <= depth -> is_file (t !! q) = is_file (t' !! q))
    /\ (depth < length q -> is_dir (t !! q) = is_dir (t' !! q)).

(** The directories [os.makedirs] makes sure of below [pre]. *)
Fixpoint dirs_from (pre : path) (rest : list string) : gmap (list string) node :=
  match rest with
  | [] => ∅
  | c :: rest' => <[pre ++ [c] := Dir]> (dirs_from (pre ++ [c]) rest')
  end.

(** What processing a post dated [dt] lays over the tree [t]. *)
Definition dated_writes (entry : Entry) (output_base : path) (dt : datetime)
  (t : gmap (list string) node) : gmap (list string) node :=
  let folder := post_folder output_base dt entry in
  match FS.makedirs folder t with
  | inl _ => ∅
  | inr _ =>
      let made := dirs_from [] folder in
      if is_dir (t !! index_path folder) then made
      else
        let with_index :=
          <[index_path folder := File (spec_post_document entry)]> made in
        match fetched_comments (extract_post_id entry) with
        | [] => with_index
        | _ :: _ =>
            if is_dir (t !! comments_path folder) then with_index
            else
              <[comments_path folder :=
                  File (spec_comments_document
                          (fetched_comments (extract_post_id entry)))]> with_index
        end
  end.

Definition post_writes (entry : Entry) (output_base : path)
  (t : gmap (list string) node) : gmap (list string) node :=
  match parse_datetime (post_published entry) with
  | None => ∅
  | Some dt => dated_writes entry output_base dt t
  end.

(** What the per-post loop lays over the tree: later posts over earlier ones. *)
Fixpoint batch_writes (posts : list Entry) (t : gmap (list string) node)
  : gmap (list string) node :=
  match posts with
  | [] => ∅
  | entry :: rest => batch_writes rest t ∪ post_writes entry OUTPUT_DIR t
  end.


(** What [main] lays over the tree once the posts are fetched. *)
Definition run_writes (posts : list Entry) (t : gmap (list string) node)
  : gmap (list string) node :=
  match posts with
  | [] => ∅
  | _ :: _ =>
      match FS.makedirs OUTPUT_DIR t with
      | inl _ => ∅
      | inr t1 => batch_writes posts t1 ∪ dirs_from [] OUTPUT_DIR
      end
  end.

(** What [main] returns or raises once the posts are fetched. *)
Definition run_result (posts : list Entry) (t : gmap (list string) node)
  : Result pyval :=
  match posts with
  | [] => Returned PyNone
  | _ :: _ =>
      match FS.makedirs OUTPUT_DIR t with
      | inl e => Raised e
      | inr _ => Returned PyNone
      end
  end.


(* --------------------------------------------------------------------- *)
(** *** Character tests on strings *)
(* --------------------------------------------------------------------- *)

(** Every character is a decimal digit. *)
Definition all_digits (s : string) : bool :=
  forallb PyStr.is_digit (PyStr.chars s).

(** The first character, if any, is a decimal digit. *)
Definition starts_with_digit (s : string) : bool :=
  match PyStr.chars s with
  | [] => false
  | c :: _ => PyStr.is_digit c
  end.

(** Every byte of [t] continues a character. *)
Fixpoint all_continuation (t : string) : bool :=
  match t with
  | String b r => PyStr.is_continuation b && all_continuation r
  | EmptyString => true
  end.

(** [c] has the shape of one character: a byte and the bytes that continue
    it. *)
Definition char_shaped (c : string) : bool :=
  match c with
  | String _ t => all_continuation t
  | EmptyString => false
  end.

(** The lists of pieces [PyStr.chars] produces: every piece has the shape of
    a character, and every piece but the first begins one. *)
Definition splits_at_characters (cs : list string) : Prop :=
  Forall (fun c => char_shaped c = true) cs
  /\ Forall (fun c => PyStr.starts_with_continuation c = false) (tail cs).

(** The byte [c] does not occur. *)
Fixpoint no_char (c : ascii) (s : string) : bool :=
  match s with
  | EmptyString => true
  | String a r => negb (Ascii.eqb a c) && no_char c r
  end.


(* --------------------------------------------------------------------- *)
(** *** Where a dated post can fail *)
(* --------------------------------------------------------------------- *)

(** The entry [entry] with its [id] key removed. *)
Definition without_id (entry : Entry) : Entry :=
  mk_entry None (entry_title entry) (entry_published entry)
    (entry_content entry) (entry_summary entry) (entry_author_detail entry).

(** [process_post] on a post dated [dt], with each [open] decided by what
    the initial tree holds at the file's path. *)
Definition dated_post_decided (entry : Entry) (output_base : path)
  (dt : datetime) (w : World) : Result (option path) * World :=
  let folder := post_folder output_base dt entry in
  let post_id := extract_post_id entry in
  match FS.makedirs folder (fs w) with
  | inl e => (Raised e, w)
  | inr t1 =>
      if is_dir (fs w !! index_path folder) then
        (Raised (IsADirectoryError (index_path folder)), mk_world t1 (log w))
      else
        let t2 := <[index_path folder := File (spec_post_document entry)]> t1 in
        if truthy_opt post_id then
          let lg := log w ++ comment_events post_id in
          match fetched_comments post_id with
          | [] => (Returned (Some folder), mk_world t2 lg)
          | _ :: _ =>
              if is_dir (fs w !! comments_path folder) then
                (Raised (IsADirectoryError (comments_path folder)),
                 mk_world t2 lg)
              else
                (Returned (Some folder),
                 mk_world
                   (<[comments_path folder :=
                        File (spec_comments_document (fetched_comments post_id))]> t2)
                   lg)
          end
        else (Returned (Some folder), mk_world t2 (log w))
  end.


(* ===================================================================== *)
(** ** Properties *)
(* ===================================================================== *)

(* --------------------------------------------------------------------- *)
(** *** Strings *)
(* --------------------------------------------------------------------- *)

Lemma str_app_nil_l (a : string) : "" +:+ a = a.
Proof. reflexivity. Qed.

Lemma str_app_cons (x : ascii) (a b : string) :
  String x a +:+ b = String x (a +:+ b).
Proof. reflexivity. Qed.

Lemma str_app_assoc (a b c : string) : (a +:+ b) +:+ c = a +:+ (b +:+ c).
Proof.
  induction a as [|x a IH]; [reflexivity|].
  rewrite !str_app_cons. now rewrite IH.
Qed.

Lemma str_app_nil_r (a : string) : a +:+ "" = a.
Proof.
  induction a as [|x a IH]; [reflexivity|].
  rewrite str_app_cons. now rewrite IH.
Qed.




Lemma truthy_true (s : string) : PyStr.truthy s = true <-> s <> "".
Proof. destruct s; simpl; split; congruence. Qed.


(* --------------------------------------------------------------------- *)
(** *** Characters *)
(* --------------------------------------------------------------------- *)

Lemma implode_cons (c : string) (cs : list string) :
  PyStr.implode (c :: cs) = c +:+ PyStr.implode cs.
Proof. reflexivity. Qed.

Lemma implode_chars (s : string) : PyStr.implode (PyStr.chars s) = s.
Proof.
  induction s as [|b r IH]; [reflexivity|].
  cbn [PyStr.chars]. destruct (PyStr.chars r) as [|c cs].
  - cbn in IH. subst r. reflexivity.
  - destruct (PyStr.starts_with_continuation c);
      rewrite !implode_cons, ?str_app_cons, ?str_app_nil_l;
      rewrite implode_cons in IH; now rewrite IH.
Qed.

Lemma chars_splits (s : string) : splits_at_characters (PyStr.chars s).
Proof.
  induction s as [|b r IH]; [split; constructor|].
  cbn [PyStr.chars]. destruct IH as [Hs Ht].
  destruct (PyStr.chars r) as [|c cs].
  - split; repeat constructor.
  - destruct (PyStr.starts_with_continuation c) eqn:Hc.
    + split; [|exact Ht]. inversion Hs as [|? ? Hc' Hcs]; subst.
      constructor; [|exact Hcs]. cbn [char_shaped].
      destruct c as [|b' t]; [discriminate|]. cbn [all_continuation].
      cbn in Hc. cbn in Hc'. now rewrite Hc, Hc'.
    + split.
      * constructor; [reflexivity | exact Hs].
      * cbn [tail]. constructor; [exact Hc|exact Ht].
Qed.

Lemma chars_byte_then (b : ascii) (t R : string) (r : list string) :
  PyStr.chars R = r ->
  match r with
  | c :: _ => PyStr.starts_with_continuation c = false
  | [] => True
  end ->
  all_continuation t = true ->
  PyStr.chars (String b (t +:+ R)) = String b t :: r.
Proof.
  intros HR Hr. revert b. induction t as [|b' t IH]; intros b Ht.
  - rewrite str_app_nil_l. cbn [PyStr.chars]. rewrite HR.
    destruct r as [|c cs]; [reflexivity|]. now rewrite Hr.
  - cbn [all_continuation] in Ht. apply andb_prop in Ht.
    destruct Ht as [Hb' Ht]. rewrite str_app_cons.
    change (PyStr.chars (String b (String b' (t +:+ R))))
      with (match PyStr.chars (String b' (t +:+ R)) with
            | c :: cs =>
                if PyStr.starts_with_continuation c then String b c :: cs
                else String b EmptyString :: c :: cs
            | [] => [String b EmptyString]
            end).
    rewrite (IH b' Ht). cbn [PyStr.starts_with_continuation].
    now rewrite Hb'.
Qed.

Lemma chars_implode_begun (cs : list string) :
  Forall (fun c => char_shaped c = true) cs ->
  Forall (fun c => PyStr.starts_with_continuation c = false) cs ->
  PyStr.chars (PyStr.implode cs) = cs.
Proof.
  induction cs as [|c cs IH]; intros Hs Hb; [reflexivity|].
  inversion Hs as [|? ? Hc Hcs]; subst. inversion Hb as [|? ? Hc' Hcs']; subst.
  rewrite implode_cons. destruct c as [|b t]; [discriminate|].
  rewrite str_app_cons. apply chars_byte_then.
  - exact (IH Hcs Hcs').
  - destruct cs as [|c' cs']; [exact I|]. now inversion Hcs'.
  - exact Hc.
Qed.

Lemma chars_implode (cs : list string) :
  splits_at_characters cs -> PyStr.chars (PyStr.implode cs) = cs.
Proof.
  intros [Hs Ht]. destruct cs as [|c cs]; [reflexivity|].
  inversion Hs as [|? ? Hc Hcs]; subst. cbn [tail] in Ht.
  rewrite implode_cons. destruct c as [|b t]; [discriminate|].
  rewrite str_app_cons. apply chars_byte_then.
  - exact (chars_implode_begun _ Hcs Ht).
  - destruct cs as [|c' cs']; [exact I|]. now inversion Ht.
  - exact Hc.
Qed.

Lemma splits_tail (c : string) (cs : list string) :
  splits_at_characters (c :: cs) -> splits_at_characters cs.
Proof.
  intros [Hs Ht]. inversion Hs; subst. cbn [tail] in Ht. split; [assumption|].
  destruct cs; [constructor|]. now inversion Ht.
Qed.

Lemma implode_app (a b : list string) :
  PyStr.implode (a ++ b) = PyStr.implode a +:+ PyStr.implode b.
Proof.
  induction a as [|c a IH]; [reflexivity|].
  cbn [app]. rewrite !implode_cons, IH. now rewrite str_app_assoc.
Qed.

Lemma splits_app (a b : list string) :
  splits_at_characters (a ++ b) ->
  splits_at_characters a /\ splits_at_characters b.
Proof.
  induction a as [|c a IH]; intros H.
  - split; [split; constructor | exact H].
  - destruct (IH (splits_tail _ _ H)) as [Ha Hb]. split; [|exact Hb].
    destruct H as [Hs Ht]. cbn [app tail] in *.
    inversion Hs as [|? ? Hc Hcs]; subst.
    apply Forall_app in Hcs. apply Forall_app in Ht.
    destruct Hcs as [Hcs _]. destruct Ht as [Ht _].
    split; [constructor; assumption | exact Ht].
Qed.

Lemma chars_head (s : string) :
  match PyStr.chars s with
  | c :: _ => PyStr.starts_with_continuation c = PyStr.starts_with_continuation s
  | [] => s = ""
  end.
Proof.
  destruct s as [|b r]; [reflexivity|]. cbn [PyStr.chars].
  destruct (PyStr.chars r) as [|c cs]; [reflexivity|].
  now destruct (PyStr.starts_with_continuation c).
Qed.

Lemma chars_app (a b : string) :
  PyStr.starts_with_continuation b = false ->
  PyStr.chars (a +:+ b) = PyStr.chars a ++ PyStr.chars b.
Proof.
  intros Hb. induction a as [|x a IH]; [reflexivity|].
  rewrite str_app_cons. cbn [PyStr.chars]. rewrite IH.
  destruct (PyStr.chars a) as [|c cs].
  - cbn [app]. pose proof (chars_head b) as Hh.
    destruct (PyStr.chars b) as [|c' cs']; [reflexivity|].
    now rewrite Hh, Hb.
  - cbn [app]. now destruct (PyStr.starts_with_continuation c).
Qed.

(* --------------------------------------------------------------------- *)
(** *** Dates *)
(* --------------------------------------------------------------------- *)



Lemma strftime_comment_date (dt : datetime) :
  strftime dt "%Y-%m-%d %H:%M"
  = PyStr.of_nat (dt_year dt) +:+ "-"
    +:+ PyStr.zfill 2 (PyStr.of_nat (dt_month dt)) +:+ "-"
    +:+ PyStr.zfill 2 (PyStr.of_nat (dt_day dt)) +:+ " "
    +:+ PyStr.zfill 2 (PyStr.of_nat (dt_hour dt)) +:+ ":"
    +:+ PyStr.zfill 2 (PyStr.of_nat (dt_minute dt)).
Proof.
  cbn [strftime strftime_directive Ascii.eqb Bool.eqb].
  rewrite str_app_nil_r. reflexivity.
Qed.


(* --------------------------------------------------------------------- *)
(** *** File tree primitives *)
(* --------------------------------------------------------------------- *)

Lemma open_w_inr (p : path) (t t' : gmap (list string) node) :
  FS.open_w p t = inr t' -> t' = <[p := File ""]> t.
Proof.
  unfold FS.open_w. intros H.
  destruct (FS.stat t (FS.parent p)) as [[|d]|]; try discriminate.
  destruct (FS.stat t p) as [[|d]|]; try discriminate; congruence.
Qed.

Lemma write_insert (p : path) (d s : string) (t : gmap (list string) node) :
  FS.write p s (<[p := File d]> t) = <[p := File (d +:+ s)]> t.
Proof.
  unfold FS.write. rewrite lookup_insert_eq. apply insert_insert_eq.
Qed.

(* --------------------------------------------------------------------- *)
(** *** The comments loop writes the specified document *)
(* --------------------------------------------------------------------- *)

Lemma write_comment_run (f : path) (n i : nat) (c : Entry) (d : string)
  (t : gmap (list string) node) (lg : list event) :
  write_comment f n i c (mk_world (<[f := File d]> t) lg)
  = (Returned tt,
     mk_world
       (<[f := File (d +:+ (spec_comment_block c
                            +:+ (if i <? n - 1 then spec_separator else "")))]> t)
       lg).
Proof.
  unfold write_comment, bind, f_write, ret. cbn [fs log].
  rewrite !write_insert.
  unfold spec_comment_block, entry_markdown, comment_author, spec_separator.
  destruct (i <? n - 1); cbn [fs log].
  - rewrite write_insert. rewrite !str_app_assoc. reflexivity.
  - rewrite !str_app_assoc, str_app_nil_r. reflexivity.
Qed.

Lemma for_comments_run (f : path) (n : nat) (cs : list Entry) :
  forall (i : nat) (d : string) (t : gmap (list string) node) (lg : list event),
    for_comments f n i cs (mk_world (<[f := File d]> t) lg)
    = (Returned tt, mk_world (<[f := File (d +:+ comments_text n i cs)]> t) lg).
Proof.
  induction cs as [|c rest IH]; intros i d t lg.
  - cbn [for_comments comments_text]. unfold ret. now rewrite str_app_nil_r.
  - cbn [for_comments comments_text]. unfold bind at 1.
    rewrite write_comment_run, IH. now rewrite !str_app_assoc.
Qed.

Lemma comments_text_blocks (cs : list Entry) :
  forall i, comments_text (i + length cs) i cs = spec_comment_blocks cs.
Proof.
  induction cs as [|c rest IH]; intros i; [reflexivity|].
  cbn [comments_text length].
  destruct rest as [|c' rest'].
  - cbn [length comments_text spec_comment_blocks].
    replace (i <? i + 1 - 1) with false
      by (symmetry; apply Nat.ltb_ge; lia).
    now rewrite !str_app_nil_r.
  - replace (i + S (length (c' :: rest'))) with (S i + length (c' :: rest'))
      by (cbn [length]; lia).
    rewrite IH.
    replace (i <? S i + length (c' :: rest') - 1) with true
      by (symmetry; apply Nat.ltb_lt; cbn [length]; lia).
    reflexivity.
Qed.

Lemma comments_text_document (cs : list Entry) :
  "# Comments" +:+ LF +:+ LF +:+ comments_text (length cs) 0 cs
  = spec_comments_document cs.
Proof.
  unfold spec_comments_document.
  now rewrite <- (comments_text_blocks cs 0).
Qed.

(* --------------------------------------------------------------------- *)
(** *** [fetch_comments] and [process_post] in closed form *)
(* --------------------------------------------------------------------- *)

Lemma bind_ret {A B : Type} (a : A) (k : A -> M B) (w : World) :
  bind (ret a) k w = k a w.
Proof. reflexivity. Qed.

Lemma bind_assoc {A B C : Type} (m : M A) (k : A -> M B) (h : B -> M C) (w : World) :
  bind (bind m k) h w = bind m (fun a => bind (k a) h) w.
Proof. unfold bind. destruct (m w) as [[a|e] w']; reflexivity. Qed.

Lemma bind_if {A B : Type} (b : bool) (m1 m2 : M A) (k : A -> M B) (w : World) :
  bind (if b then m1 else m2) k w = if b then bind m1 k w else bind m2 k w.
Proof. now destruct b. Qed.

Lemma bind_emit {B : Type} (ev : event) (k : unit -> M B) (w : World) :
  bind (emit ev) k w = k tt (mk_world (fs w) (log w ++ [ev])).
Proof. reflexivity. Qed.

Lemma bind_f_write {B : Type} (p : path) (s d : string) (k : unit -> M B)
  (t : gmap (list string) node) (lg : list event) :
  bind (f_write p s) k (mk_world (<[p := File d]> t) lg)
  = k tt (mk_world (<[p := File (d +:+ s)]> t) lg).
Proof. unfold bind, f_write. cbn [fs log]. now rewrite write_insert. Qed.

Lemma bind_fs_try {B : Type} (op : gmap (list string) node -> exn + gmap (list string) node)
  (k : unit -> M B) (w : World) :
  bind (fs_try op) k w
  = match op (fs w) with
    | inl e => (Raised e, w)
    | inr t => k tt (mk_world t (log w))
    end.
Proof. unfold bind, fs_try. now destruct (op (fs w)). Qed.

Lemma fetch_comments_run (post_id : option string) (w : World) :
  fetch_comments post_id w
  = (Returned (fetched_comments post_id),
     if truthy_opt post_id
     then mk_world (fs w) (log w ++ fetch_events post_id)
     else w).
Proof.
  unfold fetch_comments, fetched_comments, fetch_events.
  destruct (truthy_opt post_id); cbn [negb]; [|reflexivity].
  fold (comments_url post_id).
  unfold try_except, parse, bind, emit, raise, ret, print. cbn [fs log].
  destruct (feedparser_parse (comments_url post_id)) as [e|feed]; cbn [fs log].
  - unfold emit. cbn [fs log]. now rewrite <- app_assoc.
  - unfold bozo_and_empty.
    destruct (feed_bozo feed), (feed_entries feed); reflexivity.
Qed.

Lemma bind_fetch_comments {B : Type} (post_id : option string)
  (k : list Entry -> M B) (w : World) :
  bind (fetch_comments post_id) k w
  = k (fetched_comments post_id)
      (if truthy_opt post_id
       then mk_world (fs w) (log w ++ fetch_events post_id)
       else w).
Proof. unfold bind. now rewrite fetch_comments_run. Qed.

Lemma process_post_undated (entry : Entry) (output_base : path) (w : World) :
  parse_datetime (post_published entry) = None ->
  process_post entry output_base w
  = (Returned None,
     mk_world (fs w)
       (log w ++ [EPrint ("  Skipping post with invalid date: "
                          +:+ post_published entry)])).
Proof.
  intros H. unfold process_post. fold (post_published entry). rewrite H.
  reflexivity.
Qed.

Lemma process_post_dated (entry : Entry) (output_base : path) (dt : datetime)
  (w : World) :
  parse_datetime (post_published entry) = Some dt ->
  process_post entry output_base w = dated_post_run entry output_base dt w.
Proof.
  intros H. unfold process_post, dated_post_run.
  fold (post_published entry). rewrite H.
  fold (post_title entry). fold (post_folder output_base dt entry).
  set (folder := post_folder output_base dt entry).
  fold (index_path folder). fold (comments_path folder).
  unfold os_makedirs, open_w. rewrite bind_fs_try.
  destruct (FS.makedirs folder (fs w)) as [e|t1]; [reflexivity|].
  rewrite bind_fs_try. cbn [fs log].
  destruct (FS.open_w (index_path folder) t1) as [e|t1'] eqn:Hopen; [reflexivity|].
  apply open_w_inr in Hopen. subst t1'.
  rewrite bind_if, bind_f_write, bind_ret, !bind_f_write.
  replace (if PyStr.truthy (post_title entry) then _ else _)
    with ((fun w' : World =>
             ((if truthy_opt (extract_post_id entry)
               then
                 time_sleep REQUEST_DELAY ;;
                 comments <- fetch_comments (extract_post_id entry) ;;
                 match comments with
                 | [] => ret tt
                 | _ :: _ =>
                     fs_try (FS.open_w (comments_path folder)) ;;
                     f_write (comments_path folder) ("# Comments" +:+ LF +:+ LF) ;;
                     for_comments (comments_path folder) (length comments) 0 comments
                 end
               else ret tt) ;;
              ret (Some folder))%py w')
            (mk_world (<[index_path folder := File (spec_post_document entry)]> t1)
               (log w)))
    by (unfold spec_post_document, entry_markdown;
        destruct (PyStr.truthy (post_title entry));
        rewrite ?str_app_nil_l, ?str_app_assoc; reflexivity).
  cbv beta. rewrite bind_if.
  destruct (truthy_opt (extract_post_id entry)) eqn:Hid; [|reflexivity].
  unfold time_sleep. rewrite bind_assoc, bind_emit, bind_assoc.
  rewrite bind_fetch_comments, Hid. cbn [fs log].
  rewrite <- app_assoc. cbn [app]. fold (comment_events (extract_post_id entry)).
  destruct (fetched_comments (extract_post_id entry)) as [|c cs] eqn:Hcs;
    [reflexivity|].
  rewrite bind_assoc, bind_fs_try. cbn [fs log].
  destruct (FS.open_w (comments_path folder) _) as [e|t3] eqn:Hopen2;
    [reflexivity|].
  apply open_w_inr in Hopen2. subst t3.
  rewrite bind_assoc, bind_f_write, str_app_nil_l.
  unfold bind. rewrite for_comments_run.
  rewrite !str_app_assoc, comments_text_document. reflexivity.
Qed.

(* --------------------------------------------------------------------- *)
(** *** What [os.makedirs] leaves alone *)
(* --------------------------------------------------------------------- *)

Lemma makedirs_from_deeper (rest : list string) :
  forall (pre : path) (t t' : gmap (list string) node) (q : path),
    FS.makedirs_from pre rest t = inr t' ->
    length (pre ++ rest) < length q ->
    t' !! q = t !! q.
Proof.
  induction rest as [|c rest IH]; intros pre t t' q Hm Hlen.
  - cbn in Hm. congruence.
  - cbn [FS.makedirs_from] in Hm.
    assert (Hlen' : length ((pre ++ [c]) ++ rest) < length q)
      by (rewrite <- app_assoc; exact Hlen).
    destruct (t !! (pre ++ [c])) as [[|d]|] eqn:Hp.
    + eapply IH; eassumption.
    + discriminate.
    + rewrite (IH _ _ _ _ Hm Hlen').
      apply lookup_insert_ne. intros Heq. subst q.
      rewrite !length_app in Hlen. cbn [length] in Hlen. lia.
Qed.

Lemma makedirs_deeper (p q : path) (t t' : gmap (list string) node) :
  FS.makedirs p t = inr t' -> length p < length q -> t' !! q = t !! q.
Proof. intros Hm Hlen. eapply makedirs_from_deeper; [exact Hm | exact Hlen]. Qed.

Lemma index_comments_distinct (folder : path) :
  index_path folder <> comments_path folder.
Proof.
  unfold index_path, comments_path, os_path_join. intros H.
  apply app_inv_head in H. discriminate.
Qed.

Lemma length_index_path (folder : path) :
  length (index_path folder) = S (length folder).
Proof. unfold index_path, os_path_join. rewrite length_app. cbn. lia. Qed.

Lemma length_comments_path (folder : path) :
  length (comments_path folder) = S (length folder).
Proof. unfold comments_path, os_path_join. rewrite length_app. cbn. lia. Qed.

(* --------------------------------------------------------------------- *)
(** *** Path Resolver *)
(* --------------------------------------------------------------------- *)




(* --------------------------------------------------------------------- *)
(** *** Posts without a usable timestamp *)
(* --------------------------------------------------------------------- *)

(** C3.  A post whose [published] field does not parse is skipped: the call
    returns [None] without raising, the file tree is left exactly as it was
    (no directory created, no file written), and the only thing that happens
    is the "Skipping post" line. *)
Theorem undated_post_is_skipped (entry : Entry) (output_base : path) (w : World) :
  parse_datetime (post_published entry) = None ->
  exists w' : World,
    process_post entry output_base w = (Returned None, w')
    /\ fs w' = fs w
    /\ log w' = log w ++ [EPrint ("  Skipping post with invalid date: "
                                  +:+ post_published entry)].
Proof.
  intros H. eexists. split; [apply (process_post_undated _ _ _ H)|].
  split; reflexivity.
Qed.

(* --------------------------------------------------------------------- *)
(** *** The two documents of a dated post *)
(* --------------------------------------------------------------------- *)

(** The tree in which the comments of a dated post are about to be handled
    holds at the comments path what the initial tree held there. *)
Lemma comments_path_untouched_by_index (folder : path) (doc : string)
  (t t1 : gmap (list string) node) :
  FS.makedirs folder t = inr t1 ->
  <[index_path folder := File doc]> t1 !! comments_path folder
  = t !! comments_path folder.
Proof.
  intros Hm. rewrite lookup_insert_ne by apply index_comments_distinct.
  apply (makedirs_deeper _ _ _ _ Hm). rewrite length_comments_path. lia.
Qed.

(** C7.  The content of an entry is the value of its first content block
    when it has one (whether or not it also has a summary), and its summary
    otherwise; absent or empty HTML renders to the empty string; and the
    [index.md] of a dated post that was processed without error holds the
    [# <title>] heading and a blank line when the trimmed title is non-empty,
    then the trimmed markdown body, then one newline. *)
Theorem post_document_contents (entry : Entry) :
  match entry_content entry with
  | Some (b :: _) => entry_html entry = default "" (block_value b)
  | _ => entry_html entry = default "" (entry_summary entry)
  end
  /\ html_to_markdown None = ""
  /\ html_to_markdown (Some "") = ""
  /\ (forall (output_base : path) (dt : datetime) (w w' : World)
        (r : option path),
         parse_datetime (post_published entry) = Some dt ->
         process_post entry output_base w = (Returned r, w') ->
         fs w' !! (output_base
                   ++ [strftime dt "%Y"; generate_folder_name dt (post_title entry)]
                   ++ ["index.md"])
         = Some (File ((if PyStr.truthy (post_title entry)
                        then "# " +:+ post_title entry +:+ LF +:+ LF
                        else "")
                       +:+ PyStr.strip (html_to_markdown (Some (entry_html entry)))
                       +:+ LF))).
Proof.
  repeat split.
  - unfold entry_html.
    destruct (entry_content entry) as [[|b bs]|], (entry_summary entry);
      reflexivity.
  - intros output_base dt w w' r Hdt Hrun.
    rewrite (process_post_dated _ _ _ _ Hdt) in Hrun.
    unfold dated_post_run in Hrun.
    change (output_base
            ++ [strftime dt "%Y"; generate_folder_name dt (post_title entry)]
            ++ ["index.md"])
      with (output_base
            ++ ([strftime dt "%Y"; generate_folder_name dt (post_title entry)]
                ++ ["index.md"])).
    rewrite app_assoc.
    change (fs w' !! index_path (post_folder output_base dt entry)
            = Some (File (spec_post_document entry))).
    set (folder := post_folder output_base dt entry) in *.
    destruct (FS.makedirs folder (fs w)) as [e|t1]; [discriminate|].
    destruct (FS.open_w (index_path folder) t1) as [e|t1']; [discriminate|].
    destruct (truthy_opt (extract_post_id entry)).
    + destruct (fetched_comments (extract_post_id entry)) as [|c cs].
      * injection Hrun as _ <-. apply lookup_insert_eq.
      * destruct (FS.open_w (comments_path folder) _) as [e|t3]; [discriminate|].
        injection Hrun as _ <-. cbn [fs].
        rewrite lookup_insert_ne
          by (intros Heq; symmetry in Heq; exact (index_comments_distinct _ Heq)).
        apply lookup_insert_eq.
    + injection Hrun as _ <-. apply lookup_insert_eq.
Qed.

(** C6.  For a dated post: when at least one comment was fetched and the
    post is processed without error, [comments.md] holds exactly the
    [# Comments] heading followed by the comments' blocks in fetch order
    (each a [## <author> - <date>] subheading, [Anonymous] standing for a
    missing author, then the rendered markdown), with a [---] line between
    consecutive blocks and none after the last; when no comment was fetched,
    whatever was at the [comments.md] path is left as it was. *)
Theorem comments_document_contents (entry : Entry) (output_base : path)
  (dt : datetime) (w w' : World) (res : Result (option path)) :
  parse_datetime (post_published entry) = Some dt ->
  process_post entry output_base w = (res, w') ->
  let comments := fetched_comments (extract_post_id entry) in
  let comments_md := comments_path (post_folder output_base dt entry) in
  match comments with
  | [] => fs w' !! comments_md = fs w !! comments_md
  | _ :: _ =>
      forall r, res = Returned r ->
        fs w' !! comments_md = Some (File (spec_comments_document comments))
  end.
Proof.
  intros Hdt Hrun. cbv zeta.
  rewrite (process_post_dated _ _ _ _ Hdt) in Hrun.
  unfold dated_post_run in Hrun.
  set (folder := post_folder output_base dt entry) in *.
  assert (Hnone : truthy_opt (extract_post_id entry) = false ->
                  fetched_comments (extract_post_id entry) = []).
  { intros Hid. unfold fetched_comments. now rewrite Hid. }
  destruct (FS.makedirs folder (fs w)) as [e|t1] eqn:Hm.
  { injection Hrun as <- <-.
    destruct (fetched_comments (extract_post_id entry)); [reflexivity|].
    intros r Hr. discriminate. }
  destruct (FS.open_w (index_path folder) t1) as [e|t1'].
  { injection Hrun as <- <-. cbn [fs].
    destruct (fetched_comments (extract_post_id entry)).
    - apply (makedirs_deeper _ _ _ _ Hm). rewrite length_comments_path. lia.
    - intros r Hr. discriminate. }
  destruct (truthy_opt (extract_post_id entry)) eqn:Hid.
  - destruct (fetched_comments (extract_post_id entry)) as [|c cs].
    + injection Hrun as <- <-. cbn [fs].
      now apply comments_path_untouched_by_index.
    + destruct (FS.open_w (comments_path folder) _) as [e|t3].
      * injection Hrun as <- <-. intros r Hr. discriminate.
      * injection Hrun as <- <-. intros r _. cbn [fs]. apply lookup_insert_eq.
  - rewrite (Hnone eq_refl). injection Hrun as <- <-. cbn [fs].
    now apply comments_path_untouched_by_index.
Qed.

(* --------------------------------------------------------------------- *)
(** *** Comment dates *)
(* --------------------------------------------------------------------- *)

Lemma returned_post_comments_md (entry : Entry) (output_base : path)
  (dt : datetime) (w w' : World) (r : option path) :
  parse_datetime (post_published entry) = Some dt ->
  process_post entry output_base w = (Returned r, w') ->
  fetched_comments (extract_post_id entry) <> [] ->
  fs w' !! comments_path (post_folder output_base dt entry)
  = Some (File (spec_comments_document
                  (fetched_comments (extract_post_id entry)))).
Proof.
  intros Hdt Hrun Hcs.
  rewrite (process_post_dated _ _ _ _ Hdt) in Hrun.
  unfold dated_post_run in Hrun.
  set (folder := post_folder output_base dt entry) in *.
  destruct (FS.makedirs folder (fs w)) as [e|t1]; [discriminate|].
  destruct (FS.open_w (index_path folder) t1) as [e|t1']; [discriminate|].
  destruct (truthy_opt (extract_post_id entry)) eqn:Hid.
  - destruct (fetched_comments (extract_post_id entry)) as [|c cs];
      [congruence|].
    destruct (FS.open_w (comments_path folder) _) as [e|t3]; [discriminate|].
    injection Hrun as _ <-. cbn [fs]. apply lookup_insert_eq.
  - exfalso. apply Hcs. unfold fetched_comments. now rewrite Hid.
Qed.

Lemma spec_comment_blocks_at (before after : list Entry) (comment : Entry) :
  spec_comment_blocks (before ++ comment :: after)
  = blocks_before before +:+ spec_comment_block comment +:+ blocks_after after.
Proof.
  unfold blocks_before. induction before as [|b bs IH].
  - cbn [app map PyStr.implode fold_right]. rewrite str_app_nil_l.
    destruct after as [|c' r]; [|reflexivity].
    cbn [spec_comment_blocks blocks_after]. now rewrite str_app_nil_r.
  - cbn [app map]. rewrite implode_cons, !str_app_assoc, <- IH.
    now destruct bs.
Qed.

(** C10.  A comment whose [published] field does not parse is neither an
    error nor left out.  [format_comment_date] gives the date as
    [%Y-%m-%d %H:%M] when the field parses and the raw string, unchanged,
    when it does not; and in the [comments.md] of a post that was processed
    without error, every fetched comment has its block at its place, after
    the blocks of the comments before it and before those of the comments
    after it, with that date in its subheading. *)
Theorem comment_date_falls_back_to_raw_string (entry : Entry)
  (output_base : path) (dt : datetime) (w w' : World) (r : option path)
  (before after : list Entry) (comment : Entry) :
  parse_datetime (post_published entry) = Some dt ->
  process_post entry output_base w = (Returned r, w') ->
  fetched_comments (extract_post_id entry) = before ++ comment :: after ->
  let raw := default "" (entry_published comment) in
  let shown :=
    match parse_datetime raw with
    | Some cdt =>
        PyStr.of_nat (dt_year cdt) +:+ "-"
        +:+ PyStr.zfill 2 (PyStr.of_nat (dt_month cdt)) +:+ "-"
        +:+ PyStr.zfill 2 (PyStr.of_nat (dt_day cdt)) +:+ " "
        +:+ PyStr.zfill 2 (PyStr.of_nat (dt_hour cdt)) +:+ ":"
        +:+ PyStr.zfill 2 (PyStr.of_nat (dt_minute cdt))
    | None => raw
    end in
  format_comment_date raw = shown
  /\ fs w' !! comments_path (post_folder output_base dt entry)
     = Some (File ("# Comments" +:+ LF +:+ LF
                   +:+ blocks_before before
                   +:+ "## " +:+ comment_author comment +:+ " - " +:+ shown
                   +:+ LF +:+ LF
                   +:+ entry_markdown comment +:+ LF +:+ LF
                   +:+ blocks_after after)).
Proof.
  intros Hdt Hrun Hcs. cbv zeta.
  assert (Hshown :
    format_comment_date (default "" (entry_published comment))
    = match parse_datetime (default "" (entry_published comment)) with
      | Some cdt =>
          PyStr.of_nat (dt_year cdt) +:+ "-"
          +:+ PyStr.zfill 2 (PyStr.of_nat (dt_month cdt)) +:+ "-"
          +:+ PyStr.zfill 2 (PyStr.of_nat (dt_day cdt)) +:+ " "
          +:+ PyStr.zfill 2 (PyStr.of_nat (dt_hour cdt)) +:+ ":"
          +:+ PyStr.zfill 2 (PyStr.of_nat (dt_minute cdt))
      | None => default "" (entry_published comment)
      end).
  { unfold format_comment_date.
    destruct (parse_datetime (default "" (entry_published comment)));
      [apply strftime_comment_date | reflexivity]. }
  split; [exact Hshown|].
  rewrite (returned_post_comments_md _ _ _ _ _ _ Hdt Hrun)
    by (rewrite Hcs; now destruct before).
  rewrite Hcs, <- Hshown. unfold spec_comments_document.
  rewrite spec_comment_blocks_at. unfold spec_comment_block.
  now rewrite !str_app_assoc.
Qed.

(* --------------------------------------------------------------------- *)
(** *** Comment Fetcher *)
(* --------------------------------------------------------------------- *)

(** C5, as the script behaves.  [fetch_comments] never raises and never
    touches the file tree.  Without an identifier it returns the empty list
    and makes no request.  With one it makes exactly one request: when the
    request raises, the error is printed and the empty list is returned;
    when it yields a feed, the entries of that feed are returned, which is
    the empty list for a feed flagged as malformed that carries no entry, and
    the salvaged entries for a feed flagged as malformed that carries some. *)
Theorem fetch_comments_never_raises (post_id : option string) (w : World) :
  fetch_comments post_id w
  = if truthy_opt post_id then
      match feedparser_parse (comments_url post_id) with
      | inl e =>
          (Returned [],
           mk_world (fs w)
             (log w ++ [EFetch (comments_url post_id);
                        EPrint ("  Error fetching comments for "
                                +:+ default "" post_id +:+ ": " +:+ exn_str e)]))
      | inr feed =>
          (Returned (feed_entries feed),
           mk_world (fs w) (log w ++ [EFetch (comments_url post_id)]))
      end
    else (Returned [], w).
Proof.
  rewrite fetch_comments_run. unfold fetched_comments, fetch_events.
  destruct (truthy_opt post_id); [|reflexivity].
  destruct (feedparser_parse (comments_url post_id)); reflexivity.
Qed.

(* --------------------------------------------------------------------- *)
(** *** Pagination Walker *)
(* --------------------------------------------------------------------- *)

Lemma fetch_page_run (url : string) (posts : list Entry) (w : World) :
  fetch_page url posts w
  = (page_result url posts, mk_world (fs w) (log w ++ page_events url posts)).
Proof.
  unfold fetch_page, page_result, page_events, parse, print.
  rewrite bind_emit, bind_assoc, bind_emit. cbn [fs log].
  rewrite <- !app_assoc. cbn [app].
  destruct (feedparser_parse url) as [e|feed]; [reflexivity|].
  rewrite bind_ret.
  destruct (bozo_and_empty feed).
  - rewrite bind_emit. cbn [fs log]. rewrite <- app_assoc. reflexivity.
  - rewrite bind_emit. cbn [fs log]. rewrite <- app_assoc. cbn [app].
    rewrite bind_if. unfold time_sleep. rewrite bind_emit, bind_ret. cbn [fs log].
    destruct (truthy_opt (next_url feed)).
    + unfold ret. now rewrite <- app_assoc.
    + reflexivity.
Qed.

Lemma while_url_walk (fuel : nat) :
  forall (url : option string) (posts : list Entry) (w : World),
    while_url fuel url posts w
    = match walk fuel url posts with
      | Some (r, evs) => Some (r, mk_world (fs w) (log w ++ evs))
      | None => None
      end.
Proof.
  induction fuel as [|fuel IH]; intros url posts w; cbn [while_url walk].
  - destruct (truthy_opt url); [reflexivity|].
    rewrite app_nil_r. now destruct w.
  - destruct (truthy_opt url).
    + rewrite fetch_page_run.
      destruct (page_result (default "" url) posts) as [[ps|url' ps]|e];
        try reflexivity.
      rewrite IH. destruct (walk fuel url' ps) as [[r evs]|]; [|reflexivity].
      cbn [fs log]. now rewrite app_assoc.
    + rewrite app_nil_r. now destruct w.
Qed.

Lemma fetch_all_posts_walk (fuel : nat) (w : World) :
  fetch_all_posts fuel w
  = match walk fuel (Some start_url) [] with
    | Some (r, evs) => Some (r, mk_world (fs w) (log w ++ evs))
    | None => None
    end.
Proof. unfold fetch_all_posts. apply while_url_walk. Qed.

Lemma walk_chain (pages : list Feed) :
  forall (url : string) (posts : list Entry) (fuel : nat),
    feed_chain url pages ->
    length pages <= fuel ->
    exists evs : list event,
      walk fuel (Some url) posts
      = Some (Returned (posts ++ concat (map feed_entries pages)), evs)
      /\ List.filter is_request evs = spec_requests url pages.
Proof.
  induction pages as [|feed rest IH]; intros url posts fuel Hc Hfuel;
    [inversion Hc|].
  destruct fuel as [|fuel]; [cbn in Hfuel; lia|].
  cbn [walk truthy_opt default from_option id]. unfold page_result, page_events.
  inversion Hc as [u f Hu Hp Hlast | u u' f r Hu Hp Hok Hnext Hrest]; subst.
  - rewrite Hu, Hp. cbn [map concat]. rewrite app_nil_r.
    destruct (bozo_and_empty feed) eqn:Hb.
    + assert (He : feed_entries feed = []).
      { unfold bozo_and_empty in Hb.
        destruct (feed_bozo feed), (feed_entries feed); cbn in Hb;
          congruence. }
      rewrite He, app_nil_r.
      eexists. split; reflexivity.
    + destruct Hlast as [Hl|Hl]; [congruence|]. rewrite Hl.
      destruct fuel as [|fuel]; cbn [walk]; rewrite Hl;
        (eexists; split; [reflexivity|]); reflexivity.
  - rewrite Hu, Hp, Hok, Hnext.
    assert (Hu' : PyStr.truthy u' = true) by (inversion Hrest; assumption).
    cbn [truthy_opt]. rewrite Hu'.
    destruct (IH u' (posts ++ feed_entries feed) fuel Hrest
                ltac:(cbn in Hfuel; lia)) as (evs & Hw & Hreq).
    rewrite Hw. eexists. split.
    + cbn [map concat]. now rewrite app_assoc.
    + cbn [app List.filter is_request]. rewrite Hreq.
      destruct rest as [|feed' rest']; [inversion Hrest|].
      cbn [spec_requests]. rewrite Hnext. reflexivity.
Qed.

Lemma spec_requests_sleeps (pages : list Feed) :
  forall url,
    length (List.filter is_sleep (spec_requests url pages)) = length pages - 1.
Proof.
  induction pages as [|feed rest IH]; intros url; [reflexivity|].
  destruct rest as [|feed' rest']; [reflexivity|].
  change (spec_requests url (feed :: feed' :: rest'))
    with (EFetch url :: ESleep REQUEST_DELAY
          :: spec_requests (default "" (next_url feed)) (feed' :: rest')).
  cbn [List.filter is_sleep]. cbn [length] in *.
  rewrite IH. lia.
Qed.

Lemma next_url_without_next_link (feed : Feed) :
  (forall l, In l (default [] (feed_links feed)) -> link_rel l <> Some "next") ->
  next_url feed = None.
Proof.
  intros H. unfold next_url.
  destruct (find is_next (default [] (feed_links feed))) as [l|] eqn:Hf;
    [|reflexivity].
  apply find_some in Hf. destruct Hf as [Hin Hn].
  exfalso. apply (H l Hin). unfold is_next in Hn.
  destruct (link_rel l) as [r|]; [|discriminate].
  apply String.eqb_eq in Hn. now subst r.
Qed.

Lemma filter_sleep_request (evs : list event) :
  List.filter is_sleep (List.filter is_request evs) = List.filter is_sleep evs.
Proof.
  induction evs as [|ev evs IH]; [reflexivity|].
  destruct ev; cbn [List.filter is_request is_sleep]; now rewrite IH.
Qed.

(** C1.  On a feed of [N] pages met from the start URL on (each page but
    the last usable and linking to the next; the last with no usable "next"
    link, or a failed fetch without entries), [fetch_all_posts], given fuel
    for [N] fetches, returns without raising the entries of every page,
    concatenated in page order, and leaves the file tree alone.  Its requests
    and sleeps are, in order, one request per page with one sleep of the fixed
    delay between consecutive requests: [N - 1] sleeps in all.  In
    particular a page without any link of relation ["next"] is a last page,
    and so is a failed fetch without entries. *)
Theorem fetch_all_posts_walks_every_page (pages : list Feed) (fuel : nat)
  (w : World) :
  feed_chain start_url pages ->
  length pages <= fuel ->
  (exists evs : list event,
      fetch_all_posts fuel w
      = Some (Returned (concat (map feed_entries pages)),
              mk_world (fs w) (log w ++ evs))
      /\ List.filter is_request evs = spec_requests start_url pages
      /\ length (List.filter is_sleep evs) = length pages - 1)
  /\ (forall (url : string) (feed : Feed),
         PyStr.truthy url = true ->
         feedparser_parse url = inr feed ->
         (forall l, In l (default [] (feed_links feed)) ->
                    link_rel l <> Some "next")
         \/ (feed_bozo feed = true /\ feed_entries feed = []) ->
         feed_chain url [feed]).
Proof.
  intros Hc Hfuel. split.
  - destruct (walk_chain pages start_url [] fuel Hc Hfuel) as (evs & Hw & Hreq).
    exists evs. rewrite fetch_all_posts_walk, Hw. cbn [app].
    split; [reflexivity|]. split; [exact Hreq|].
    rewrite <- filter_sleep_request, Hreq. apply spec_requests_sleeps.
  - intros url feed Hu Hp [Hno|[Hb He]]; apply chain_last; try assumption.
    + right. now rewrite (next_url_without_next_link _ Hno).
    + left. unfold bozo_and_empty. now rewrite Hb, He.
Qed.

(* --------------------------------------------------------------------- *)
(** *** The per-post loop of [main] *)
(* --------------------------------------------------------------------- *)

Lemma handle_post_run (n i : nat) (entry : Entry) (w : World) :
  handle_post n i entry w
  = let '(res, w') :=
      process_post entry OUTPUT_DIR
        (mk_world (fs w) (log w ++ [post_header n i entry])) in
    (Returned tt, mk_world (fs w') (log w' ++ outcome_events res)).
Proof.
  unfold handle_post, print. rewrite bind_emit. fold (post_header n i entry).
  unfold try_except, bind, outcome_events.
  destruct (process_post entry OUTPUT_DIR _) as [[[p|]|e] w'].
  - destruct (PyStr.truthy (path_str p)); [reflexivity|].
    unfold ret. rewrite app_nil_r. now destruct w'.
  - unfold ret. rewrite app_nil_r. now destruct w'.
  - reflexivity.
Qed.

Lemma for_posts_returns (n : nat) (posts : list Entry) :
  forall (i : nat) (w : World),
    exists w' : World, for_posts n i posts w = (Returned tt, w').
Proof.
  induction posts as [|entry rest IH]; intros i w; cbn [for_posts].
  - eexists. reflexivity.
  - unfold bind. rewrite handle_post_run.
    destruct (process_post entry OUTPUT_DIR _) as [res w1].
    apply IH.
Qed.

Lemma for_posts_app (n : nat) (before after : list Entry) :
  forall (i : nat) (w w1 : World),
    for_posts n i before w = (Returned tt, w1) ->
    for_posts n i (before ++ after) w = for_posts n (i + length before) after w1.
Proof.
  induction before as [|entry rest IH]; intros i w w1 Hb.
  - cbn in Hb. injection Hb as <-. cbn [app length]. now rewrite Nat.add_0_r.
  - cbn [for_posts app length] in *. unfold bind in *.
    destruct (handle_post n i entry w) as [[[]|e] w2]; [|discriminate].
    rewrite (IH _ _ _ Hb). f_equal. lia.
Qed.

(** C2.  Whatever the posts before it did, every post of the list is
    processed, in feed order: the loop over the earlier posts returns
    normally; the post is then announced and [process_post] runs on it; if
    that call raises, the exception is caught and an ["  Error: ..."] line is
    printed; and in every case the loop goes on with the posts after it and
    itself returns normally. *)
Theorem post_failure_does_not_stop_the_batch (n i : nat)
  (before after : list Entry) (entry : Entry) (w : World) :
  exists w1 w3 : World,
    for_posts n i before w = (Returned tt, w1)
    /\ (let '(res, w2) :=
          process_post entry OUTPUT_DIR
            (mk_world (fs w1)
               (log w1 ++ [post_header n (i + length before) entry])) in
        let logged :=
          match res with
          | Raised e => [EPrint ("  Error: " +:+ exn_str e)]
          | Returned (Some p) =>
              if PyStr.truthy (path_str p)
              then [EPrint ("  " +:+ ARROW +:+ " " +:+ path_str p)]
              else []
          | Returned None => []
          end in
        for_posts n i (before ++ entry :: after) w
        = for_posts n (S (i + length before)) after
            (mk_world (fs w2) (log w2 ++ logged)))
    /\ for_posts n i (before ++ entry :: after) w = (Returned tt, w3).
Proof.
  destruct (for_posts_returns n before i w) as [w1 Hb].
  destruct (for_posts_returns n (before ++ entry :: after) i w) as [w3 Hall].
  exists w1, w3. split; [exact Hb|]. split; [|exact Hall].
  rewrite (for_posts_app _ _ _ _ _ _ Hb).
  cbn [for_posts]. unfold bind at 1. rewrite handle_post_run.
  destruct (process_post entry OUTPUT_DIR _) as [res w2].
  reflexivity.
Qed.

(* --------------------------------------------------------------------- *)
(** *** What [main] returns *)
(* --------------------------------------------------------------------- *)

Lemma fetch_all_posts_fs (fuel : nat) (w w' : World) (r : Result (list Entry)) :
  fetch_all_posts fuel w = Some (r, w') -> fs w' = fs w.
Proof.
  rewrite fetch_all_posts_walk.
  destruct (walk fuel (Some start_url) []) as [[r' evs]|]; [|discriminate].
  intros H. injection H as _ <-. reflexivity.
Qed.

Lemma main_after_fetch_none (posts : list Entry) (w w' : World) (r : pyval) :
  main_after_fetch posts w = (Returned r, w') -> r = PyNone.
Proof.
  unfold main_after_fetch, print. rewrite bind_emit.
  destruct posts as [|entry rest].
  - rewrite bind_emit. unfold ret. congruence.
  - unfold os_makedirs. rewrite bind_fs_try. cbn [fs log].
    destruct (FS.makedirs OUTPUT_DIR (fs w)) as [e|t]; [discriminate|].
    rewrite bind_emit. cbn [fs log]. unfold bind at 1.
    destruct (for_posts_returns (length (entry :: rest)) (entry :: rest) 1
                (mk_world t ((log w ++ [EPrint (LF +:+ "Total posts found: "
                     +:+ PyStr.of_nat (length (entry :: rest)))])
                             ++ [EPrint (LF +:+ "Processing posts...")])))
      as [w1 Hw1].
    rewrite Hw1, bind_emit. unfold ret. congruence.
Qed.

(** C8, as the script behaves.  [main] hands back nothing: whenever it
    returns, the value is [None], never a count.  When the Pagination Walker
    returns no entry, [main] returns normally having printed the total and
    ["No posts found. Exiting."], and the file tree is exactly what it was:
    no directory created, no file written. *)
Theorem main_returns_none (fuel : nat) (w : World) :
  (forall (r : pyval) (w' : World),
      main fuel w = Some (Returned r, w') -> r = PyNone)
  /\ (forall w2 : World,
         fetch_all_posts fuel
           (mk_world (fs w) (log w ++ [EPrint "Fetching all posts from the blog..."]))
         = Some (Returned [], w2) ->
         main fuel w
         = Some (Returned PyNone,
                 mk_world (fs w)
                   (log w2 ++ [EPrint (LF +:+ "Total posts found: 0");
                               EPrint "No posts found. Exiting."]))).
Proof.
  split.
  - intros r w'. unfold main, print, emit.
    destruct (fetch_all_posts fuel _) as [[[posts|e] w2]|]; try discriminate.
    intros H. injection H as H. exact (main_after_fetch_none _ _ _ _ H).
  - intros w2 Hf. unfold main, print, emit. rewrite Hf.
    apply fetch_all_posts_fs in Hf. cbn [fs] in Hf.
    unfold main_after_fetch, print. rewrite !bind_emit. cbn [fs log length].
    unfold ret. rewrite Hf, <- app_assoc. reflexivity.
Qed.

(* --------------------------------------------------------------------- *)
(** *** Shapes of trees *)
(* --------------------------------------------------------------------- *)

Lemma same_shape_refl (depth : nat) (t : gmap (list string) node) :
  same_shape depth t t.
Proof. intros q. split; reflexivity. Qed.

Lemma same_shape_sym (depth : nat) (t t' : gmap (list string) node) :
  same_shape depth t t' -> same_shape depth t' t.
Proof. intros H q. destruct (H q) as [H1 H2]. split; intros; symmetry; auto. Qed.

Lemma same_shape_trans (depth : nat) (t1 t2 t3 : gmap (list string) node) :
  same_shape depth t1 t2 -> same_shape depth t2 t3 -> same_shape depth t1 t3.
Proof.
  intros H12 H23 q. destruct (H12 q) as [A1 A2], (H23 q) as [B1 B2].
  split; intros Hq; [rewrite A1, B1 | rewrite A2, B2]; auto.
Qed.

Lemma same_shape_insert_dir (depth : nat) (p : path)
  (t : gmap (list string) node) :
  is_file (t !! p) = false ->
  length p <= depth ->
  same_shape depth t (<[p := Dir]> t).
Proof.
  intros Hf Hp q. destruct (decide (p = q)) as [<-|Hne].
  - rewrite lookup_insert_eq. split; [now rewrite Hf | lia].
  - rewrite lookup_insert_ne by exact Hne. split; reflexivity.
Qed.

Lemma same_shape_insert_file (depth : nat) (p : path) (d : string)
  (t : gmap (list string) node) :
  is_dir (t !! p) = false ->
  depth < length p ->
  same_shape depth t (<[p := File d]> t).
Proof.
  intros Hd Hp q. destruct (decide (p = q)) as [<-|Hne].
  - rewrite lookup_insert_eq. split; [lia | now rewrite Hd].
  - rewrite lookup_insert_ne by exact Hne. split; reflexivity.
Qed.

(* --------------------------------------------------------------------- *)
(** *** [os.makedirs] as an overlay *)
(* --------------------------------------------------------------------- *)

Lemma dirs_from_lookup (rest : list string) :
  forall (pre q : path) (n : node),
    dirs_from pre rest !! q = Some n ->
    n = Dir /\ length pre < length q <= length (pre ++ rest).
Proof.
  induction rest as [|c rest IH]; intros pre q n H; cbn [dirs_from] in H.
  - rewrite lookup_empty in H. discriminate.
  - destruct (decide (pre ++ [c] = q)) as [<-|Hne].
    + rewrite lookup_insert_eq in H. injection H as <-.
      rewrite !length_app. cbn [length]. split; [reflexivity | lia].
    + rewrite lookup_insert_ne in H by exact Hne.
      destruct (IH _ _ _ H) as [Hn Hl]. split; [exact Hn|].
      rewrite <- app_assoc in Hl. rewrite length_app in Hl. cbn [length app] in Hl.
      lia.
Qed.

Lemma dirs_from_fresh (pre : path) (c : string) (rest : list string) :
  dirs_from (pre ++ [c]) rest !! (pre ++ [c]) = None.
Proof.
  destruct (dirs_from (pre ++ [c]) rest !! (pre ++ [c])) as [n|] eqn:H;
    [|reflexivity].
  apply dirs_from_lookup in H. lia.
Qed.

Lemma makedirs_from_union (rest : list string) :
  forall (pre : path) (t t' : gmap (list string) node),
    FS.makedirs_from pre rest t = inr t' ->
    t' = dirs_from pre rest ∪ t.
Proof.
  induction rest as [|c rest IH]; intros pre t t' H;
    cbn [FS.makedirs_from dirs_from] in *.
  - injection H as <-. now rewrite (left_id_L ∅ (∪)).
  - destruct (t !! (pre ++ [c])) as [[|d]|] eqn:Hp.
    + rewrite (IH _ _ _ H), <- insert_union_l.
      rewrite insert_union_r by apply dirs_from_fresh.
      now rewrite (insert_id t _ _ Hp).
    + discriminate.
    + rewrite (IH _ _ _ H), <- insert_union_l.
      now rewrite insert_union_r by apply dirs_from_fresh.
Qed.

Lemma makedirs_from_shape (depth : nat) (rest : list string) :
  forall (pre : path) (t t' : gmap (list string) node),
    FS.makedirs_from pre rest t = inr t' ->
    length (pre ++ rest) <= depth ->
    same_shape depth t t'.
Proof.
  induction rest as [|c rest IH]; intros pre t t' H Hlen;
    cbn [FS.makedirs_from] in H.
  - injection H as <-. apply same_shape_refl.
  - assert (Hlen' : length ((pre ++ [c]) ++ rest) <= depth)
      by (now rewrite <- app_assoc).
    assert (Hp' : length (pre ++ [c]) <= depth)
      by (rewrite !length_app in *; cbn [length] in *; lia).
    destruct (t !! (pre ++ [c])) as [[|d]|] eqn:Hp.
    + exact (IH _ _ _ H Hlen').
    + discriminate.
    + eapply same_shape_trans; [|exact (IH _ _ _ H Hlen')].
      apply same_shape_insert_dir; [now rewrite Hp | exact Hp'].
Qed.

(** Whether [os.makedirs] fails, and how, depends on the shape alone. *)
Lemma makedirs_from_decided (rest : list string) :
  forall (pre : path) (t t' : gmap (list string) node),
    (forall q, length q <= length (pre ++ rest) ->
               is_file (t !! q) = is_file (t' !! q)) ->
    match FS.makedirs_from pre rest t, FS.makedirs_from pre rest t' with
    | inl e, inl e' => e = e'
    | inr _, inr _ => True
    | _, _ => False
    end.
Proof.
  induction rest as [|c rest IH]; intros pre t t' Hs;
    cbn [FS.makedirs_from]; [exact I|].
  assert (Hp : is_file (t !! (pre ++ [c])) = is_file (t' !! (pre ++ [c]))).
  { apply Hs. rewrite !length_app. cbn [length]. lia. }
  assert (Hs' : forall u u' : gmap (list string) node,
             (forall q, q <> pre ++ [c] -> u !! q = t !! q) ->
             (forall q, q <> pre ++ [c] -> u' !! q = t' !! q) ->
             is_file (u !! (pre ++ [c])) = is_file (u' !! (pre ++ [c])) ->
             forall q, length q <= length ((pre ++ [c]) ++ rest) ->
                       is_file (u !! q) = is_file (u' !! q)).
  { intros u u' Hu Hu' Hpp q Hq. destruct (decide (q = pre ++ [c])) as [->|Hne].
    - exact Hpp.
    - rewrite (Hu q Hne), (Hu' q Hne). apply Hs. now rewrite <- app_assoc in Hq. }
  destruct (t !! (pre ++ [c])) as [[|d]|] eqn:Ht,
           (t' !! (pre ++ [c])) as [[|d']|] eqn:Ht';
    cbn [is_file] in Hp; try discriminate; try reflexivity.
  - apply IH, Hs'; auto. now rewrite Ht, Ht'.
  - apply IH, Hs'; auto.
    + intros q Hne. now rewrite lookup_insert_ne.
    + now rewrite Ht, lookup_insert_eq.
  - apply IH, Hs'; auto.
    + intros q Hne. now rewrite lookup_insert_ne.
    + now rewrite Ht', lookup_insert_eq.
  - apply IH, Hs'; auto.
    + intros q Hne. now rewrite lookup_insert_ne.
    + intros q Hne. now rewrite lookup_insert_ne.
    + now rewrite !lookup_insert_eq.
Qed.

Lemma makedirs_from_made (rest : list string) :
  forall (pre : path) (t t' : gmap (list string) node),
    FS.makedirs_from pre rest t = inr t' ->
    rest <> [] ->
    t' !! (pre ++ rest) = Some Dir.
Proof.
  induction rest as [|c rest IH]; intros pre t t' H Hne; [congruence|].
  cbn [FS.makedirs_from] in H.
  destruct rest as [|c' rest'].
  - destruct (t !! (pre ++ [c])) as [[|d]|] eqn:Hp; cbn in H;
      try discriminate; injection H as <-; [exact Hp | apply lookup_insert_eq].
  - replace (pre ++ c :: c' :: rest') with ((pre ++ [c]) ++ c' :: rest')
      by (now rewrite <- app_assoc).
    destruct (t !! (pre ++ [c])) as [[|d]|] eqn:Hp; try discriminate;
      now apply (IH _ _ _ H).
Qed.

(* --------------------------------------------------------------------- *)
(** *** What one post does to the tree *)
(* --------------------------------------------------------------------- *)

Lemma open_w_in_dir (folder : path) (name : string)
  (t : gmap (list string) node) :
  folder <> [] ->
  t !! folder = Some Dir ->
  FS.open_w (folder ++ [name]) t
  = if is_dir (t !! (folder ++ [name]))
    then inl (IsADirectoryError (folder ++ [name]))
    else inr (<[folder ++ [name] := File ""]> t).
Proof.
  intros Hne Hdir. unfold FS.open_w, FS.parent. rewrite removelast_last.
  assert (Hs : FS.stat t folder = Some Dir) by (now destruct folder).
  assert (Hs' : FS.stat t (folder ++ [name]) = t !! (folder ++ [name]))
    by (now destruct folder).
  rewrite Hs, Hs'. now destruct (t !! (folder ++ [name])) as [[|d]|].
Qed.

Lemma post_folder_length (output_base : path) (dt : datetime) (entry : Entry) :
  length (post_folder output_base dt entry) = length output_base + 2.
Proof. unfold post_folder, os_path_join. rewrite length_app. reflexivity. Qed.

Lemma post_folder_nonempty (output_base : path) (dt : datetime) (entry : Entry) :
  post_folder output_base dt entry <> [].
Proof.
  intros H. apply (f_equal (@length string)) in H.
  rewrite post_folder_length in H. cbn in H. lia.
Qed.

Lemma dated_post_run_tree (entry : Entry) (output_base : path) (dt : datetime)
  (w : World) :
  fs (snd (dated_post_run entry output_base dt w))
  = dated_writes entry output_base dt (fs w) ∪ fs w
  /\ same_shape (length output_base + 2) (fs w)
       (fs (snd (dated_post_run entry output_base dt w))).
Proof.
  remember (dated_post_run entry output_base dt w) as x eqn:Hx.
  unfold dated_post_run in Hx. unfold dated_writes.
  pose proof (post_folder_length output_base dt entry) as Hlen.
  pose proof (post_folder_nonempty output_base dt entry) as Hne.
  set (folder := post_folder output_base dt entry) in *.
  set (depth := length output_base + 2) in *.
  destruct (FS.makedirs folder (fs w)) as [e|t1] eqn:Hm.
  { subst x. cbn [snd]. rewrite (left_id_L ∅ (∪)).
    split; [reflexivity | apply same_shape_refl]. }
  assert (Hu : t1 = dirs_from [] folder ∪ fs w)
    by exact (makedirs_from_union _ _ _ _ Hm).
  assert (Hs1 : same_shape depth (fs w) t1).
  { apply (makedirs_from_shape depth folder [] _ _ Hm). cbn [app]. lia. }
  assert (Hd1 : t1 !! folder = Some Dir)
    by exact (makedirs_from_made _ _ _ _ Hm Hne).
  assert (Hi : t1 !! index_path folder = fs w !! index_path folder).
  { apply (makedirs_deeper _ _ _ _ Hm). rewrite length_index_path. lia. }
  change (FS.open_w (index_path folder) t1)
    with (FS.open_w (folder ++ ["index.md"]) t1) in Hx.
  rewrite (open_w_in_dir _ _ _ Hne Hd1) in Hx.
  change (folder ++ ["index.md"]) with (index_path folder) in Hx.
  rewrite Hi in Hx.
  destruct (is_dir (fs w !! index_path folder)) eqn:Hdi.
  { subst x. cbn [snd fs]. split; [exact Hu | exact Hs1]. }
  set (t2 := <[index_path folder := File (spec_post_document entry)]> t1) in *.
  assert (Hu2 : t2 = <[index_path folder := File (spec_post_document entry)]>
                       (dirs_from [] folder) ∪ fs w).
  { unfold t2. now rewrite Hu, insert_union_l. }
  assert (Hs2 : same_shape depth (fs w) t2).
  { eapply same_shape_trans; [exact Hs1|].
    apply same_shape_insert_file; [now rewrite Hi|].
    rewrite length_index_path. lia. }
  assert (Hnone : truthy_opt (extract_post_id entry) = false ->
                  fetched_comments (extract_post_id entry) = []).
  { intros Hid. unfold fetched_comments. now rewrite Hid. }
  assert (Hd2 : t2 !! folder = Some Dir).
  { unfold t2. rewrite lookup_insert_ne; [exact Hd1|].
    intros Heq. apply (f_equal (@length string)) in Heq.
    rewrite length_index_path in Heq. lia. }
  assert (Hc : t2 !! comments_path folder = fs w !! comments_path folder)
    by exact (comments_path_untouched_by_index _ _ _ _ Hm).
  change (FS.open_w (comments_path folder) t2)
    with (FS.open_w (folder ++ ["comments.md"]) t2) in Hx.
  rewrite (open_w_in_dir _ _ _ Hne Hd2) in Hx.
  change (folder ++ ["comments.md"]) with (comments_path folder) in Hx.
  rewrite Hc in Hx.
  destruct (truthy_opt (extract_post_id entry)) eqn:Hid.
  - destruct (fetched_comments (extract_post_id entry)) as [|c cs] eqn:Hcs.
    { subst x. cbn [snd fs]. split; [exact Hu2 | exact Hs2]. }
    destruct (is_dir (fs w !! comments_path folder)) eqn:Hdc.
    { subst x. cbn [snd fs]. split; [exact Hu2 | exact Hs2]. }
    subst x. cbn [snd fs]. split.
    + now rewrite Hu2, insert_union_l.
    + eapply same_shape_trans; [exact Hs2|].
      apply same_shape_insert_file; [now rewrite Hc|].
      rewrite length_comments_path. lia.
  - rewrite (Hnone eq_refl). subst x. cbn [snd fs].
    split; [exact Hu2 | exact Hs2].
Qed.

Lemma process_post_tree (entry : Entry) (output_base : path) (w : World) :
  fs (snd (process_post entry output_base w))
  = post_writes entry output_base (fs w) ∪ fs w
  /\ same_shape (length output_base + 2) (fs w)
       (fs (snd (process_post entry output_base w))).
Proof.
  unfold post_writes.
  destruct (parse_datetime (post_published entry)) as [dt|] eqn:Hdt.
  - rewrite (process_post_dated _ _ _ _ Hdt). apply dated_post_run_tree.
  - rewrite (process_post_undated _ _ _ Hdt). cbn [snd fs].
    rewrite (left_id_L ∅ (∪)). split; [reflexivity | apply same_shape_refl].
Qed.

(** What a post lays over the tree depends on the shape of the tree alone. *)
Lemma post_writes_shape (entry : Entry) (output_base : path)
  (t t' : gmap (list string) node) :
  same_shape (length output_base + 2) t t' ->
  post_writes entry output_base t = post_writes entry output_base t'.
Proof.
  intros Hs. unfold post_writes.
  destruct (parse_datetime (post_published entry)) as [dt|]; [|reflexivity].
  unfold dated_writes.
  pose proof (post_folder_length output_base dt entry) as Hlen.
  set (folder := post_folder output_base dt entry) in *.
  pose proof (makedirs_from_decided folder [] t t') as Hdec.
  unfold FS.makedirs.
  destruct (FS.makedirs_from [] folder t) as [e|t1],
           (FS.makedirs_from [] folder t') as [e'|t1'];
    try reflexivity;
    try (exfalso; apply Hdec; intros q Hq; apply Hs; cbn [app] in Hq; lia).
  assert (Hi : is_dir (t !! index_path folder) = is_dir (t' !! index_path folder)).
  { apply Hs. rewrite length_index_path. lia. }
  assert (Hc : is_dir (t !! comments_path folder)
               = is_dir (t' !! comments_path folder)).
  { apply Hs. rewrite length_comments_path. lia. }
  now rewrite Hi, Hc.
Qed.

(* --------------------------------------------------------------------- *)
(** *** What the whole batch does to the tree *)
(* --------------------------------------------------------------------- *)

Lemma handle_post_fs (n i : nat) (entry : Entry) (w : World) :
  fs (snd (handle_post n i entry w))
  = fs (snd (process_post entry OUTPUT_DIR
               (mk_world (fs w) (log w ++ [post_header n i entry])))).
Proof.
  rewrite handle_post_run.
  now destruct (process_post entry OUTPUT_DIR _) as [res w'].
Qed.

Lemma batch_writes_shape (posts : list Entry) (t t' : gmap (list string) node) :
  same_shape 3 t t' -> batch_writes posts t = batch_writes posts t'.
Proof.
  intros Hs. induction posts as [|entry rest IH]; [reflexivity|].
  cbn [batch_writes]. rewrite IH.
  now rewrite (post_writes_shape entry OUTPUT_DIR t t' Hs).
Qed.

Lemma for_posts_tree (n : nat) (posts : list Entry) :
  forall (i : nat) (w : World),
    fs (snd (for_posts n i posts w)) = batch_writes posts (fs w) ∪ fs w
    /\ same_shape 3 (fs w) (fs (snd (for_posts n i posts w))).
Proof.
  induction posts as [|entry rest IH]; intros i w; cbn [for_posts batch_writes].
  - cbn [ret snd]. rewrite (left_id_L ∅ (∪)).
    split; [reflexivity | apply same_shape_refl].
  - unfold bind.
    pose proof (handle_post_fs n i entry w) as Hh.
    destruct (process_post_tree entry OUTPUT_DIR
                (mk_world (fs w) (log w ++ [post_header n i entry])))
      as [Hu Hs].
    rewrite <- Hh in Hu, Hs. cbn [fs] in Hu, Hs. clear Hh.
    destruct (handle_post_run n i entry w) as [].
    destruct (handle_post n i entry w) as [[[]|e] w1] eqn:Hw1.
    2:{ exfalso. rewrite handle_post_run in Hw1.
        destruct (process_post entry OUTPUT_DIR _); discriminate. }
    cbn [snd] in Hu, Hs.
    destruct (IH (S i) w1) as [Hu' Hs'].
    split.
    + rewrite Hu', <- (batch_writes_shape rest _ _ Hs), Hu.
      now rewrite (assoc_L (∪)).
    + eapply same_shape_trans; eassumption.
Qed.

Lemma main_after_fetch_tree (posts : list Entry) (w : World) :
  fst (main_after_fetch posts w) = run_result posts (fs w)
  /\ fs (snd (main_after_fetch posts w)) = run_writes posts (fs w) ∪ fs w
  /\ same_shape 3 (fs w) (fs (snd (main_after_fetch posts w))).
Proof.
  remember (main_after_fetch posts w) as x eqn:Hx.
  unfold main_after_fetch, print in Hx. rewrite bind_emit in Hx.
  unfold run_writes, run_result.
  destruct posts as [|entry rest].
  - rewrite bind_emit in Hx. subst x. cbn [ret fst snd fs].
    rewrite (left_id_L ∅ (∪)). repeat split; reflexivity.
  - unfold os_makedirs in Hx. rewrite bind_fs_try in Hx. cbn [fs log] in Hx.
    destruct (FS.makedirs OUTPUT_DIR (fs w)) as [e|t1] eqn:Hm.
    { subst x. cbn [fst snd fs]. rewrite (left_id_L ∅ (∪)).
      repeat split; reflexivity. }
    rewrite bind_emit in Hx. cbn [fs log] in Hx. unfold bind at 1 in Hx.
    set (w1 := mk_world t1 _) in Hx.
    destruct (for_posts_tree (length (entry :: rest)) (entry :: rest) 1 w1)
      as [Hu Hs].
    destruct (for_posts_returns (length (entry :: rest)) (entry :: rest) 1 w1)
      as [w2 Hw2].
    rewrite Hw2 in Hu, Hs, Hx. cbn [snd fs] in Hu, Hs.
    rewrite bind_emit in Hx. subst x. cbn [ret fst snd fs].
    assert (Hs1 : same_shape 3 (fs w) t1).
    { apply (makedirs_from_shape 3 OUTPUT_DIR [] _ _ Hm). cbn. lia. }
    split; [reflexivity|]. split.
    + rewrite Hu. unfold w1. cbn [fs].
      rewrite (makedirs_from_union _ _ _ _ Hm) at 2.
      now rewrite (assoc_L (∪)).
    + eapply same_shape_trans; [exact Hs1 | exact Hs].
Qed.

Lemma run_writes_shape (posts : list Entry) (t t' : gmap (list string) node) :
  same_shape 3 t t' ->
  run_writes posts t = run_writes posts t'
  /\ run_result posts t = run_result posts t'.
Proof.
  intros Hs. unfold run_writes, run_result.
  destruct posts as [|entry rest]; [split; reflexivity|].
  pose proof (makedirs_from_decided OUTPUT_DIR [] t t') as Hdec.
  unfold FS.makedirs.
  assert (Hfile : forall q, length q <= length ([] ++ OUTPUT_DIR) ->
                            is_file (t !! q) = is_file (t' !! q)).
  { intros q Hq. apply Hs. cbn in Hq. lia. }
  specialize (Hdec Hfile).
  destruct (FS.makedirs_from [] OUTPUT_DIR t) as [e|t1] eqn:Hm,
           (FS.makedirs_from [] OUTPUT_DIR t') as [e'|t1'] eqn:Hm';
    try contradiction.
  - subst e'. split; reflexivity.
  - split; [|reflexivity]. f_equal.
    apply batch_writes_shape.
    assert (H1 : same_shape 3 t t1)
      by (apply (makedirs_from_shape 3 OUTPUT_DIR [] _ _ Hm); cbn; lia).
    assert (H1' : same_shape 3 t' t1')
      by (apply (makedirs_from_shape 3 OUTPUT_DIR [] _ _ Hm'); cbn; lia).
    eapply same_shape_trans; [apply same_shape_sym; exact H1|].
    eapply same_shape_trans; [exact Hs | exact H1'].
Qed.

(** Running the part of [main] that follows the fetch a second time, on the
    tree the first run left, changes nothing. *)
Lemma main_after_fetch_twice (posts : list Entry) (w w' : World) :
  fs w' = fs (snd (main_after_fetch posts w)) ->
  fst (main_after_fetch posts w') = fst (main_after_fetch posts w)
  /\ fs (snd (main_after_fetch posts w')) = fs w'.
Proof.
  intros Hw'.
  destruct (main_after_fetch_tree posts w) as (Hr & Hu & Hs).
  destruct (main_after_fetch_tree posts w') as (Hr' & Hu' & _).
  rewrite <- Hw' in Hu, Hs.
  destruct (run_writes_shape posts _ _ Hs) as [HW HR].
  split.
  - now rewrite Hr, Hr', HR.
  - rewrite Hu', <- HW. rewrite Hu at 1 2.
    rewrite (assoc_L (∪)). now rewrite (idemp_L (∪)).
Qed.

(* --------------------------------------------------------------------- *)
(** *** Which post wrote a file *)
(* --------------------------------------------------------------------- *)

Lemma dated_writes_lookup (entry : Entry) (output_base : path) (dt : datetime)
  (t : gmap (list string) node) (q : path) (n : node) :
  dated_writes entry output_base dt t !! q = Some n ->
  let folder := post_folder output_base dt entry in
  (n = Dir /\ length q <= length output_base + 2)
  \/ (q = index_path folder /\ n = File (spec_post_document entry))
  \/ (q = comments_path folder
      /\ n = File (spec_comments_document
                     (fetched_comments (extract_post_id entry)))).
Proof.
  cbv zeta. unfold dated_writes.
  pose proof (post_folder_length output_base dt entry) as Hlen.
  set (folder := post_folder output_base dt entry) in *.
  assert (Hdirs : forall m, dirs_from [] folder !! q = Some m ->
                            m = Dir /\ length q <= length output_base + 2).
  { intros m Hm. apply dirs_from_lookup in Hm. cbn [app] in Hm.
    split; [tauto | lia]. }
  assert (Hidx : forall m,
             <[index_path folder := File (spec_post_document entry)]>
               (dirs_from [] folder) !! q = Some m ->
             (m = Dir /\ length q <= length output_base + 2)
             \/ (q = index_path folder /\ m = File (spec_post_document entry))).
  { intros m Hm. destruct (decide (index_path folder = q)) as [<-|Hne].
    - rewrite lookup_insert_eq in Hm. injection Hm as <-. now right.
    - rewrite lookup_insert_ne in Hm by exact Hne. left. now apply Hdirs. }
  destruct (FS.makedirs folder t) as [e|t1];
    [rewrite lookup_empty; discriminate|].
  destruct (is_dir (t !! index_path folder)).
  { intros H. left. now apply Hdirs. }
  destruct (fetched_comments (extract_post_id entry)) as [|c cs].
  { intros H. destruct (Hidx _ H) as [?|?]; [now left | right; now left]. }
  destruct (is_dir (t !! comments_path folder)).
  { intros H. destruct (Hidx _ H) as [?|?]; [now left | right; now left]. }
  destruct (decide (comments_path folder = q)) as [<-|Hne].
  - rewrite lookup_insert_eq. intros H. injection H as <-. right. now right.
  - rewrite lookup_insert_ne by exact Hne.
    intros H. destruct (Hidx _ H) as [?|?]; [now left | right; now left].
Qed.

Lemma batch_writes_lookup (posts : list Entry) (t : gmap (list string) node)
  (q : path) (n : node) :
  batch_writes posts t !! q = Some n ->
  exists entry, In entry posts /\ post_writes entry OUTPUT_DIR t !! q = Some n.
Proof.
  induction posts as [|entry rest IH]; cbn [batch_writes].
  - rewrite lookup_empty. discriminate.
  - intros H. apply lookup_union_Some_raw in H. destruct H as [H|[_ H]].
    + destruct (IH H) as (e & Hin & He). exists e. split; [now right | exact He].
    + exists entry. split; [now left | exact H].
Qed.

Lemma run_writes_lookup (posts : list Entry) (t : gmap (list string) node)
  (q : path) (n : node) :
  run_writes posts t !! q = Some n ->
  1 < length q ->
  exists entry t1,
    In entry posts /\ post_writes entry OUTPUT_DIR t1 !! q = Some n.
Proof.
  unfold run_writes. destruct posts as [|entry rest];
    [rewrite lookup_empty; discriminate|].
  destruct (FS.makedirs OUTPUT_DIR t) as [e|t1];
    [rewrite lookup_empty; discriminate|].
  intros H Hq. apply lookup_union_Some_raw in H. destruct H as [H|[_ H]].
  - destruct (batch_writes_lookup _ _ _ _ H) as (e & Hin & He). now exists e, t1.
  - apply dirs_from_lookup in H. cbn in H. lia.
Qed.

Lemma index_path_inj (folder folder' : path) :
  index_path folder = index_path folder' -> folder = folder'.
Proof. unfold index_path, os_path_join. intros H. now apply app_inj_tail in H. Qed.

Lemma comments_path_inj (folder folder' : path) :
  comments_path folder = comments_path folder' -> folder = folder'.
Proof.
  unfold comments_path, os_path_join. intros H. now apply app_inj_tail in H.
Qed.

Lemma index_not_comments (folder folder' : path) :
  index_path folder <> comments_path folder'.
Proof.
  unfold index_path, comments_path, os_path_join. intros H.
  apply app_inj_tail in H. destruct H as [_ H]. discriminate.
Qed.

(** In the tree a run leaves, the two files of a post whose folder no other
    post shares hold exactly that post's documents, or what the initial tree
    held there. *)
Lemma run_writes_of_unshared_folder (posts : list Entry) (entry : Entry)
  (dt : datetime) (t : gmap (list string) node) :
  parse_datetime (post_published entry) = Some dt ->
  (forall entry' dt',
      In entry' posts ->
      parse_datetime (post_published entry') = Some dt' ->
      post_folder OUTPUT_DIR dt' entry' = post_folder OUTPUT_DIR dt entry ->
      entry' = entry) ->
  let folder := post_folder OUTPUT_DIR dt entry in
  let t' := run_writes posts t ∪ t in
  (t' !! index_path folder = Some (File (spec_post_document entry))
   \/ t' !! index_path folder = t !! index_path folder)
  /\ (t' !! comments_path folder
      = Some (File (spec_comments_document
                      (fetched_comments (extract_post_id entry))))
      \/ t' !! comments_path folder = t !! comments_path folder).
Proof.
  intros Hdt Hun. cbv zeta.
  set (folder := post_folder OUTPUT_DIR dt entry) in *.
  assert (Hlen : length folder = 3) by apply post_folder_length.
  assert (Hcase : forall q n,
             run_writes posts t !! q = Some n -> length q = 4 ->
             exists entry' dt',
               In entry' posts
               /\ parse_datetime (post_published entry') = Some dt'
               /\ ((q = index_path (post_folder OUTPUT_DIR dt' entry')
                    /\ n = File (spec_post_document entry'))
                   \/ (q = comments_path (post_folder OUTPUT_DIR dt' entry')
                       /\ n = File (spec_comments_document
                                      (fetched_comments (extract_post_id entry')))))).
  { intros q n H Hq.
    destruct (run_writes_lookup _ _ _ _ H ltac:(lia)) as (e' & t1 & Hin & He').
    unfold post_writes in He'.
    destruct (parse_datetime (post_published e')) as [dt'|] eqn:Hdt';
      [|rewrite lookup_empty in He'; discriminate].
    apply dated_writes_lookup in He'. cbv zeta in He'.
    destruct He' as [[_ Hl]|He']; [cbn in Hl; lia|].
    exists e', dt'. split; [exact Hin|]. split; [exact Hdt' | exact He']. }
  split.
  - rewrite lookup_union.
    destruct (run_writes posts t !! index_path folder) as [n|] eqn:Hw.
    + left.
      destruct (Hcase _ _ Hw ltac:(rewrite length_index_path; lia))
        as (e' & dt' & Hin & Hdt' & [[Hq Hn]|[Hq _]]).
      * apply index_path_inj in Hq. symmetry in Hq.
        rewrite (Hun _ _ Hin Hdt' Hq) in Hn. subst n.
        now destruct (t !! index_path folder).
      * exfalso. exact (index_not_comments _ _ Hq).
    + right. now destruct (t !! index_path folder).
  - rewrite lookup_union.
    destruct (run_writes posts t !! comments_path folder) as [n|] eqn:Hw.
    + left.
      destruct (Hcase _ _ Hw ltac:(rewrite length_comments_path; lia))
        as (e' & dt' & Hin & Hdt' & [[Hq _]|[Hq Hn]]).
      * exfalso. symmetry in Hq. exact (index_not_comments _ _ Hq).
      * apply comments_path_inj in Hq. symmetry in Hq.
        rewrite (Hun _ _ Hin Hdt' Hq) in Hn. subst n.
        now destruct (t !! comments_path folder).
    + right. now destruct (t !! comments_path folder).
Qed.

(* --------------------------------------------------------------------- *)
(** *** Running the script twice *)
(* --------------------------------------------------------------------- *)

Lemma main_walk (fuel : nat) (w : World) :
  main fuel w
  = match walk fuel (Some start_url) [] with
    | None => None
    | Some (Raised e, evs) =>
        Some (Raised e,
              mk_world (fs w)
                ((log w ++ [EPrint "Fetching all posts from the blog..."]) ++ evs))
    | Some (Returned posts, evs) =>
        Some (main_after_fetch posts
                (mk_world (fs w)
                   ((log w ++ [EPrint "Fetching all posts from the blog..."])
                    ++ evs)))
    end.
Proof.
  unfold main, print, emit. rewrite fetch_all_posts_walk. cbn [fs log].
  now destruct (walk fuel (Some start_url) []) as [[[posts|e] evs]|].
Qed.

(** C9.  When a run of [main] on an unchanged feed is followed by a second
    run on the tree the first one left, the second run ends the same way and
    leaves every file and directory exactly as it found it: every
    [index.md] and [comments.md] is byte-identical after the two runs.  For
    a dated post whose folder no other post of the feed shares, [index.md]
    holds exactly the post document and [comments.md] exactly the comments
    document (written over whatever was there, nothing appended or
    repeated), unless the post could not be written at all, in which case
    the path holds what it held before the first run. *)
Theorem second_run_changes_nothing (fuel : nat) (w w1 : World)
  (r1 : Result pyval) :
  main fuel w = Some (r1, w1) ->
  exists w2 : World,
    main fuel w1 = Some (r1, w2)
    /\ fs w2 = fs w1
    /\ (forall (wa wb : World) (posts : list Entry) (entry : Entry)
          (dt : datetime),
           fetch_all_posts fuel wa = Some (Returned posts, wb) ->
           In entry posts ->
           parse_datetime (post_published entry) = Some dt ->
           (forall entry' dt',
               In entry' posts ->
               parse_datetime (post_published entry') = Some dt' ->
               post_folder OUTPUT_DIR dt' entry' = post_folder OUTPUT_DIR dt entry ->
               entry' = entry) ->
           let folder := post_folder OUTPUT_DIR dt entry in
           (fs w2 !! index_path folder = Some (File (spec_post_document entry))
            \/ fs w2 !! index_path folder = fs w !! index_path folder)
           /\ (fs w2 !! comments_path folder
               = Some (File (spec_comments_document
                               (fetched_comments (extract_post_id entry))))
               \/ fs w2 !! comments_path folder = fs w !! comments_path folder)).
Proof.
  intros Hrun. rewrite main_walk in Hrun. rewrite main_walk.
  destruct (walk fuel (Some start_url) []) as [[[posts|e] evs]|] eqn:Hwalk;
    [| |discriminate].
  - injection Hrun as Hrun.
    set (wf := mk_world (fs w) _) in Hrun.
    set (wf1 := mk_world (fs w1) _).
    assert (Hfs : fs wf1 = fs (snd (main_after_fetch posts wf)))
      by (now rewrite Hrun).
    destruct (main_after_fetch_twice posts wf wf1 Hfs) as [Hr Ht].
    destruct (main_after_fetch_tree posts wf) as (_ & Hu & _).
    rewrite Hrun in Hr, Hu. cbn [fst snd fs] in Hr, Hu.
    destruct (main_after_fetch posts wf1) as [r2 w2] eqn:H2.
    cbn [fst snd] in Hr, Ht. subst r2. exists w2.
    split; [reflexivity|]. split; [exact Ht|].
    intros wa wb posts' entry dt Hf Hin Hdt Hun. cbv zeta.
    rewrite fetch_all_posts_walk, Hwalk in Hf. injection Hf as <- _.
    rewrite Ht. unfold wf1. cbn [fs]. rewrite Hu. unfold wf. cbn [fs].
    exact (run_writes_of_unshared_folder posts entry dt (fs w) Hdt Hun).
  - injection Hrun as <- <-. eexists. split; [reflexivity|].
    split; [reflexivity|].
    intros wa wb posts entry dt Hf. rewrite fetch_all_posts_walk, Hwalk in Hf.
    discriminate.
Qed.

(* ===================================================================== *)
(** ** Further properties of the script *)
(* ===================================================================== *)

(* --------------------------------------------------------------------- *)
(** *** Post Identifier Extractor *)
(* --------------------------------------------------------------------- *)

Lemma digit_prefix_split (cs : list string) :
  exists rest : list string,
    cs = digit_prefix cs ++ rest
    /\ forallb PyStr.is_digit (digit_prefix cs) = true
    /\ match rest with
       | [] => true
       | c :: _ => negb (PyStr.is_digit c)
       end = true.
Proof.
  induction cs as [|c cs IH]; [exists []; repeat split|].
  cbn [digit_prefix]. destruct (PyStr.is_digit c) eqn:Hc.
  - destruct IH as (rest & Hs & Hd & Hr). exists rest. cbn [app forallb].
    rewrite <- Hs, Hc, Hd. repeat split. exact Hr.
  - exists (c :: cs). cbn [app forallb]. rewrite Hc. repeat split.
Qed.

Lemma take_digits_split (s : string) :
  exists rest : string,
    s = take_digits s +:+ rest
    /\ all_digits (take_digits s) = true
    /\ starts_with_digit rest = false.
Proof.
  unfold take_digits, all_digits, starts_with_digit.
  destruct (digit_prefix_split (PyStr.chars s)) as (rest & Hs & Hd & Hr).
  pose proof (chars_splits s) as Hw. rewrite Hs in Hw.
  destruct (splits_app _ _ Hw) as [Ha Hb].
  exists (PyStr.implode rest).
  rewrite (chars_implode _ Ha), (chars_implode _ Hb).
  split; [|split].
  - rewrite <- implode_app, <- Hs. now rewrite implode_chars.
  - exact Hd.
  - destruct rest as [|c r]; [reflexivity|]. now apply negb_true_iff.
Qed.

Lemma match_post_here_some (s d : string) :
  match_post_here s = Some d ->
  exists rest : string,
    s = "post-" +:+ d +:+ rest
    /\ d <> ""
    /\ all_digits d = true
    /\ starts_with_digit rest = false.
Proof.
  unfold match_post_here.
  destruct s as [|c1 [|c2 [|c3 [|c4 [|c5 r]]]]]; try discriminate;
    try (destruct c1 as [[] [] [] [] [] [] [] []]; discriminate).
  all: try (destruct c1 as [[] [] [] [] [] [] [] []]; try discriminate;
            destruct c2 as [[] [] [] [] [] [] [] []]; discriminate).
  all: try (destruct c1 as [[] [] [] [] [] [] [] []]; try discriminate;
            destruct c2 as [[] [] [] [] [] [] [] []]; try discriminate;
            destruct c3 as [[] [] [] [] [] [] [] []]; discriminate).
  all: try (destruct c1 as [[] [] [] [] [] [] [] []]; try discriminate;
            destruct c2 as [[] [] [] [] [] [] [] []]; try discriminate;
            destruct c3 as [[] [] [] [] [] [] [] []]; try discriminate;
            destruct c4 as [[] [] [] [] [] [] [] []]; discriminate).
  destruct c1 as [[] [] [] [] [] [] [] []]; try discriminate;
  destruct c2 as [[] [] [] [] [] [] [] []]; try discriminate;
  destruct c3 as [[] [] [] [] [] [] [] []]; try discriminate;
  destruct c4 as [[] [] [] [] [] [] [] []]; try discriminate;
  destruct c5 as [[] [] [] [] [] [] [] []]; try discriminate.
  destruct (take_digits_split r) as (rest & Hs & Hd & Hr).
  destruct (take_digits r) as [|x y] eqn:Ht; [discriminate|].
  intros H. injection H as <-. exists rest.
  split; [now rewrite Hs at 1|]. split; [discriminate|]. split; assumption.
Qed.

Lemma re_search_post_some (s d : string) :
  re_search_post s = Some d ->
  exists pre rest : string,
    s = pre +:+ "post-" +:+ d +:+ rest
    /\ d <> ""
    /\ all_digits d = true
    /\ starts_with_digit rest = false.
Proof.
  induction s as [|c r IH].
  - cbn. discriminate.
  - cbn [re_search_post].
    destruct (match_post_here (String c r)) as [d'|] eqn:Hm.
    + intros H. injection H as ->.
      destruct (match_post_here_some _ _ Hm) as (rest & Hs & Hd).
      exists "", rest. split; [exact Hs | exact Hd].
    + intros H. destruct (IH H) as (pre & rest & Hs & Hd).
      exists (String c pre), rest. rewrite str_app_cons, <- Hs.
      split; [reflexivity | exact Hd].
Qed.

(** X1.  When [extract_post_id] finds an identifier, it is a non-empty run
    of decimal digits (those [\d] matches: the ASCII digits and the decimal
    digits of the other scripts) that follows an occurrence of [post-] in the
    entry's [id] and is not followed by a further decimal digit; in
    particular it is never the empty string, so the [if post_id:] tests of
    [process_post] and [fetch_comments] succeed on it.  An entry without
    [id] has no identifier. *)
Theorem extract_post_id_is_a_digit_run (entry : Entry) :
  (entry_id entry = None -> extract_post_id entry = None)
  /\ (forall d : string,
         extract_post_id entry = Some d ->
         truthy_opt (Some d) = true
         /\ all_digits d = true
         /\ exists pre rest : string,
              default "" (entry_id entry) = pre +:+ "post-" +:+ d +:+ rest
              /\ starts_with_digit rest = false).
Proof.
  split.
  - intros H. unfold extract_post_id. now rewrite H.
  - intros d H. unfold extract_post_id in H.
    destruct (re_search_post_some _ _ H) as (pre & rest & Hs & Hne & Hd & Hr).
    split; [|split].
    + cbn [truthy_opt]. now apply truthy_true.
    + exact Hd.
    + exists pre, rest. split; assumption.
Qed.

Lemma digit_prefix_app (ds rest : list string) :
  forallb PyStr.is_digit ds = true ->
  match rest with
  | [] => false
  | c :: _ => PyStr.is_digit c
  end = false ->
  digit_prefix (ds ++ rest) = ds.
Proof.
  intros Hd Hr. induction ds as [|c ds IH].
  - destruct rest as [|c r]; [reflexivity|]. cbn [app digit_prefix]. now rewrite Hr.
  - cbn [forallb] in Hd. apply andb_prop in Hd. destruct Hd as [Hc Hd].
    cbn [app digit_prefix]. rewrite Hc. now rewrite (IH Hd).
Qed.

Lemma take_digits_app (d rest : string) :
  all_digits d = true ->
  PyStr.starts_with_continuation rest = false ->
  starts_with_digit rest = false ->
  take_digits (d +:+ rest) = d.
Proof.
  unfold all_digits, starts_with_digit, take_digits. intros Hd Hb Hr.
  rewrite (chars_app _ _ Hb), (digit_prefix_app _ _ Hd Hr).
  apply implode_chars.
Qed.

Lemma match_post_here_other (c : ascii) (r : string) :
  Ascii.eqb c "p" = false -> match_post_here (String c r) = None.
Proof.
  intros Hc. unfold match_post_here.
  destruct c as [[] [] [] [] [] [] [] []]; try reflexivity. discriminate.
Qed.

(** X2.  On an [id] of the Blogger form, some text without the letter [p],
    then [post-], then a non-empty run of decimal digits, then text that
    does not begin with a further decimal digit, [extract_post_id] returns
    exactly that run of digits.  ([rest] is text of its own: its first byte
    begins a character.) *)
Theorem extract_post_id_of_blogger_id (entry : Entry) (pre d rest : string) :
  entry_id entry = Some (pre +:+ "post-" +:+ d +:+ rest) ->
  no_char "p" pre = true ->
  d <> "" ->
  all_digits d = true ->
  PyStr.starts_with_continuation rest = false ->
  starts_with_digit rest = false ->
  extract_post_id entry = Some d.
Proof.
  intros Hid Hpre Hne Hd Hb Hr. unfold extract_post_id. rewrite Hid.
  cbn [default from_option id]. unfold id. clear Hid.
  induction pre as [|c pre IH].
  - rewrite str_app_nil_l.
    assert (Hm : match_post_here ("post-" +:+ d +:+ rest) = Some d).
    { change ("post-" +:+ d +:+ rest)
        with (String "p" (String "o" (String "s" (String "t"
               (String "-" (d +:+ rest)))))).
      cbn [match_post_here]. rewrite (take_digits_app _ _ Hd Hb Hr).
      destruct d; [congruence | reflexivity]. }
    destruct d as [|x y]; [congruence|].
    change ("post-" +:+ String x y +:+ rest)
      with (String "p" ("ost-" +:+ String x y +:+ rest)) in *.
    cbn [re_search_post]. now rewrite Hm.
  - cbn [no_char] in Hpre. apply andb_prop in Hpre. destruct Hpre as [Hc Hpre].
    apply negb_true_iff in Hc.
    rewrite str_app_cons. cbn [re_search_post].
    rewrite (match_post_here_other _ _ Hc). exact (IH Hpre).
Qed.

(* --------------------------------------------------------------------- *)
(** *** Edge behaviour of the Pagination Walker *)
(* --------------------------------------------------------------------- *)

(** X3.  The next page is decided by the first link of relation ["next"]
    alone: links before it are skipped, links after it are never looked at,
    and its [href], present or not, is the new URL. *)
Theorem next_url_is_first_next_link (feed : Feed) (before after : list Link)
  (l : Link) :
  feed_links feed = Some (before ++ l :: after) ->
  (forall x, In x before -> link_rel x <> Some "next") ->
  link_rel l = Some "next" ->
  next_url feed = link_href l.
Proof.
  intros Hl Hb Hn. unfold next_url. rewrite Hl. cbn [default from_option id].
  unfold id. clear Hl.
  induction before as [|x before IH]; cbn [app List.find].
  - unfold is_next at 1. rewrite Hn. reflexivity.
  - assert (Hx : is_next x = false).
    { unfold is_next. destruct (link_rel x) as [r|] eqn:Hr; [|reflexivity].
      apply String.eqb_neq. intros ->. apply (Hb x); [now left | exact Hr]. }
    rewrite Hx. apply IH. intros y Hy. apply Hb. now right.
Qed.

Lemma walk_self_link (url : string) (feed : Feed) :
  PyStr.truthy url = true ->
  feedparser_parse url = inr feed ->
  bozo_and_empty feed = false ->
  next_url feed = Some url ->
  forall (fuel : nat) (posts : list Entry), walk fuel (Some url) posts = None.
Proof.
  intros Hu Hp Hb Hn fuel.
  induction fuel as [|fuel IH]; intros posts; cbn [walk truthy_opt];
    rewrite Hu; [reflexivity|].
  cbn [default from_option id]. unfold id, page_result.
  rewrite Hp, Hb, Hn. now rewrite IH.
Qed.

(** X4.  The walker has no page limit and does not notice a repeated URL:
    on a feed whose first page is usable and names the start URL itself as
    its next page, [fetch_all_posts] does not return, however many fetches
    it is allowed. *)
Theorem self_linking_feed_never_ends (feed : Feed) :
  feedparser_parse start_url = inr feed ->
  bozo_and_empty feed = false ->
  next_url feed = Some start_url ->
  forall (fuel : nat) (w : World), fetch_all_posts fuel w = None.
Proof.
  intros Hp Hb Hn fuel w. rewrite fetch_all_posts_walk.
  now rewrite (walk_self_link start_url feed eq_refl Hp Hb Hn).
Qed.

(** X5.  Nothing catches an exception raised by a page fetch: when
    [fetch_all_posts] raises, [main] raises the same exception at once, and
    the file tree is what it was. *)
Theorem page_fetch_exception_escapes_main (fuel : nat) (w w2 : World) (e : exn) :
  fetch_all_posts fuel
    (mk_world (fs w) (log w ++ [EPrint "Fetching all posts from the blog..."]))
  = Some (Raised e, w2) ->
  main fuel w = Some (Raised e, w2) /\ fs w2 = fs w.
Proof.
  intros H. split.
  - unfold main, print, emit. now rewrite H.
  - now apply fetch_all_posts_fs in H.
Qed.

(** X6.  When the first page comes back flagged and without entries, the
    error is printed, and [main] then ends like on an empty blog: it prints
    that no posts were found, returns normally, and creates nothing. *)
Theorem failed_first_fetch_looks_like_an_empty_blog (feed : Feed) (fuel : nat)
  (w : World) :
  feedparser_parse start_url = inr feed ->
  feed_bozo feed = true ->
  feed_entries feed = [] ->
  main (S fuel) w
  = Some (Returned PyNone,
          mk_world (fs w)
            (log w ++ [EPrint "Fetching all posts from the blog...";
                       EPrint ("Fetching: " +:+ start_url);
                       EFetch start_url;
                       EPrint ("Error fetching feed: " +:+ feed_bozo_exception feed);
                       EPrint (LF +:+ "Total posts found: 0");
                       EPrint "No posts found. Exiting."])).
Proof.
  intros Hp Hb He. rewrite main_walk.
  cbn [walk truthy_opt default from_option id].
  unfold id, page_result, page_events, bozo_and_empty.
  change (PyStr.truthy start_url) with true. cbn iota.
  rewrite Hp, Hb, He. cbn [andb].
  unfold main_after_fetch, print. rewrite !bind_emit. cbn [ret fs log length].
  rewrite <- !app_assoc. reflexivity.
Qed.

(* --------------------------------------------------------------------- *)
(** *** How [process_post] fails, and when it talks to the network *)
(* --------------------------------------------------------------------- *)

Lemma dated_post_run_decided (entry : Entry) (output_base : path)
  (dt : datetime) (w : World) :
  dated_post_run entry output_base dt w
  = dated_post_decided entry output_base dt w.
Proof.
  unfold dated_post_run, dated_post_decided.
  pose proof (post_folder_length output_base dt entry) as Hlen.
  pose proof (post_folder_nonempty output_base dt entry) as Hne.
  set (folder := post_folder output_base dt entry) in *.
  destruct (FS.makedirs folder (fs w)) as [e|t1] eqn:Hm; [reflexivity|].
  assert (Hd1 : t1 !! folder = Some Dir)
    by exact (makedirs_from_made _ _ _ _ Hm Hne).
  assert (Hi : t1 !! index_path folder = fs w !! index_path folder).
  { apply (makedirs_deeper _ _ _ _ Hm). rewrite length_index_path. lia. }
  change (FS.open_w (index_path folder) t1)
    with (FS.open_w (folder ++ ["index.md"]) t1).
  rewrite (open_w_in_dir _ _ _ Hne Hd1).
  change (folder ++ ["index.md"]) with (index_path folder).
  rewrite Hi.
  destruct (is_dir (fs w !! index_path folder)); [reflexivity|].
  set (t2 := <[index_path folder := File (spec_post_document entry)]> t1).
  assert (Hd2 : t2 !! folder = Some Dir).
  { unfold t2. rewrite lookup_insert_ne; [exact Hd1|].
    intros Heq. apply (f_equal (@length string)) in Heq.
    rewrite length_index_path in Heq. lia. }
  assert (Hc : t2 !! comments_path folder = fs w !! comments_path folder)
    by exact (comments_path_untouched_by_index _ _ _ _ Hm).
  change (FS.open_w (comments_path folder) t2)
    with (FS.open_w (folder ++ ["comments.md"]) t2).
  rewrite (open_w_in_dir _ _ _ Hne Hd2).
  change (folder ++ ["comments.md"]) with (comments_path folder).
  rewrite Hc.
  destruct (truthy_opt (extract_post_id entry)); [|reflexivity].
  destruct (fetched_comments (extract_post_id entry)); [reflexivity|].
  now destruct (is_dir (fs w !! comments_path folder)).
Qed.

(** X7.  A comment request that raises does not abort the post, and
    leaves no trace in the files: when the post has an identifier and the
    request for its comment feed raises, [process_post] ends as it does on
    the same entry without [id], same result (the folder, or the same
    exception from the file tree), same file tree, and the log differs only
    by the sleep, the request and the error line that precede the return. *)
Theorem failed_comment_fetch_leaves_the_post_as_without_id (entry : Entry)
  (output_base : path) (w : World) (e : exn) :
  truthy_opt (extract_post_id entry) = true ->
  feedparser_parse (comments_url (extract_post_id entry)) = inl e ->
  let run := process_post entry output_base w in
  let plain := process_post (without_id entry) output_base w in
  fst run = fst plain
  /\ fs (snd run) = fs (snd plain)
  /\ log (snd run)
     = log (snd plain)
       ++ match fst run with
          | Returned (Some _) =>
              [ESleep REQUEST_DELAY;
               EFetch (comments_url (extract_post_id entry));
               EPrint ("  Error fetching comments for "
                       +:+ default "" (extract_post_id entry)
                       +:+ ": " +:+ exn_str e)]
          | _ => []
          end.
Proof.
  intros Hid Hfeed. cbv zeta.
  destruct (parse_datetime (post_published entry)) as [dt|] eqn:Hdt.
  2:{ rewrite (process_post_undated entry _ _ Hdt).
      rewrite (process_post_undated (without_id entry) _ _ Hdt).
      cbn [fst snd fs log]. now rewrite app_nil_r. }
  rewrite (process_post_dated entry _ _ _ Hdt).
  rewrite (process_post_dated (without_id entry) _ _ _ Hdt).
  unfold dated_post_run.
  change (post_folder output_base dt (without_id entry))
    with (post_folder output_base dt entry).
  change (spec_post_document (without_id entry))
    with (spec_post_document entry).
  change (truthy_opt (extract_post_id (without_id entry))) with false.
  cbn iota. rewrite Hid.
  assert (Hcs : fetched_comments (extract_post_id entry) = []).
  { unfold fetched_comments. now rewrite Hid, Hfeed. }
  rewrite Hcs. unfold comment_events, fetch_events. rewrite Hfeed.
  set (folder := post_folder output_base dt entry).
  destruct (FS.makedirs folder (fs w)) as [e0|t1].
  { cbn [fst snd fs log]. now rewrite app_nil_r. }
  destruct (FS.open_w (index_path folder) t1) as [e0|t1'].
  { cbn [fst snd fs log]. now rewrite app_nil_r. }
  cbn [fst snd fs log]. repeat split.
Qed.

(** X8.  For one post [process_post] makes at most one comment request,
    always right after one sleep of the fixed delay, and only once
    [index.md] has been written: whatever the outcome, the requests and
    sleeps it adds to the log are either none, or exactly one sleep followed
    by the request for the post's comment feed, and in the latter case the
    post has an identifier and its [index.md] holds the post document. *)
Theorem comments_are_requested_after_the_index_is_written (entry : Entry)
  (output_base : path) (w w' : World) (res : Result (option path)) :
  process_post entry output_base w = (res, w') ->
  exists evs : list event,
    log w' = log w ++ evs
    /\ (List.filter is_request evs = []
        \/ (List.filter is_request evs
            = [ESleep REQUEST_DELAY;
               EFetch (comments_url (extract_post_id entry))]
            /\ truthy_opt (extract_post_id entry) = true
            /\ exists dt : datetime,
                 parse_datetime (post_published entry) = Some dt
                 /\ fs w' !! index_path (post_folder output_base dt entry)
                    = Some (File (spec_post_document entry)))).
Proof.
  intros Hrun.
  destruct (parse_datetime (post_published entry)) as [dt|] eqn:Hdt.
  2:{ rewrite (process_post_undated _ _ _ Hdt) in Hrun.
      injection Hrun as _ <-. eexists. split; [reflexivity|]. now left. }
  rewrite (process_post_dated _ _ _ _ Hdt), dated_post_run_decided in Hrun.
  unfold dated_post_decided in Hrun.
  set (folder := post_folder output_base dt entry) in *.
  assert (Hreq : List.filter is_request (comment_events (extract_post_id entry))
                 = [ESleep REQUEST_DELAY;
                    EFetch (comments_url (extract_post_id entry))]).
  { unfold comment_events, fetch_events.
    now destruct (feedparser_parse (comments_url (extract_post_id entry))). }
  destruct (FS.makedirs folder (fs w)) as [e0|t1].
  { injection Hrun as _ <-. exists []. rewrite app_nil_r. split; [reflexivity|].
    now left. }
  destruct (is_dir (fs w !! index_path folder)).
  { injection Hrun as _ <-. exists []. cbn [log]. rewrite app_nil_r.
    split; [reflexivity|]. now left. }
  destruct (truthy_opt (extract_post_id entry)) eqn:Hid.
  2:{ injection Hrun as _ <-. exists []. cbn [log]. rewrite app_nil_r.
      split; [reflexivity|]. now left. }
  exists (comment_events (extract_post_id entry)).
  assert (Hidx : forall t3 : gmap (list string) node,
             t3 = <[index_path folder := File (spec_post_document entry)]> t1
             \/ (exists n, t3 = <[comments_path folder := n]>
                            (<[index_path folder :=
                                 File (spec_post_document entry)]> t1)) ->
             t3 !! index_path folder = Some (File (spec_post_document entry))).
  { intros t3 [->|[n ->]].
    - apply lookup_insert_eq.
    - rewrite lookup_insert_ne
        by (intros Heq; symmetry in Heq; exact (index_comments_distinct _ Heq)).
      apply lookup_insert_eq. }
  destruct (fetched_comments (extract_post_id entry)) as [|c cs].
  { injection Hrun as _ <-. cbn [log fs]. split; [reflexivity|]. right.
    split; [exact Hreq|]. split; [reflexivity|]. exists dt.
    split; [reflexivity|]. apply Hidx. now left. }
  destruct (is_dir (fs w !! comments_path folder)).
  { injection Hrun as _ <-. cbn [log fs]. split; [reflexivity|]. right.
    split; [exact Hreq|]. split; [reflexivity|]. exists dt.
    split; [reflexivity|]. apply Hidx. now left. }
  injection Hrun as _ <-. cbn [log fs]. split; [reflexivity|]. right.
  split; [exact Hreq|]. split; [reflexivity|]. exists dt.
  split; [reflexivity|]. apply Hidx. right. eexists. reflexivity.
Qed.

(* --------------------------------------------------------------------- *)
(** *** The output root *)
(* --------------------------------------------------------------------- *)

(** X9.  The output root is made outside the per-post [try]: when there are
    posts and [posts] exists as a regular file, [main] raises
    [FileExistsError] right after printing the total, no post is processed,
    and the file tree is what it was. *)
Theorem output_root_a_file_stops_main (fuel : nat) (w w2 : World)
  (entry : Entry) (rest : list Entry) (d : string) :
  fs w !! OUTPUT_DIR = Some (File d) ->
  fetch_all_posts fuel
    (mk_world (fs w) (log w ++ [EPrint "Fetching all posts from the blog..."]))
  = Some (Returned (entry :: rest), w2) ->
  main fuel w
  = Some (Raised (FileExistsError OUTPUT_DIR),
          mk_world (fs w)
            (log w2 ++ [EPrint (LF +:+ "Total posts found: "
                                +:+ PyStr.of_nat (length (entry :: rest)))])).
Proof.
  intros Hroot Hf. unfold main, print, emit. rewrite Hf.
  apply fetch_all_posts_fs in Hf. cbn [fs] in Hf.
  unfold main_after_fetch, print, os_makedirs.
  rewrite bind_emit, bind_fs_try. cbn [fs log]. rewrite Hf.
  unfold FS.makedirs, OUTPUT_DIR in *. cbn [FS.makedirs_from app].
  now rewrite Hroot.
Qed.

Lemma batch_writes_undated (posts : list Entry) (t : gmap (list string) node) :
  (forall e, In e posts -> parse_datetime (post_published e) = None) ->
  batch_writes posts t = ∅.
Proof.
  induction posts as [|entry rest IH]; intros H; [reflexivity|].
  cbn [batch_writes]. rewrite IH by (intros e He; apply H; now right).
  unfold post_writes. rewrite (H entry) by now left.
  now rewrite (left_id_L ∅ (∪)).
Qed.

(** X10.  The output root is made before any post is looked at: on a feed
    none of whose posts has a usable timestamp, [main] returns normally and
    the only change to the file tree is that [posts] is now a directory. *)
Theorem undated_feed_creates_only_the_output_root (fuel : nat) (w w2 : World)
  (entry : Entry) (rest : list Entry) :
  fetch_all_posts fuel
    (mk_world (fs w) (log w ++ [EPrint "Fetching all posts from the blog..."]))
  = Some (Returned (entry :: rest), w2) ->
  (forall e, In e (entry :: rest) -> parse_datetime (post_published e) = None) ->
  is_file (fs w !! OUTPUT_DIR) = false ->
  exists w' : World,
    main fuel w = Some (Returned PyNone, w')
    /\ fs w' = <[OUTPUT_DIR := Dir]> (fs w).
Proof.
  intros Hf Hun Hroot. unfold main, print, emit. rewrite Hf.
  apply fetch_all_posts_fs in Hf. cbn [fs] in Hf.
  destruct (main_after_fetch_tree (entry :: rest) w2) as (Hr & Hu & _).
  destruct (main_after_fetch (entry :: rest) w2) as [r w'].
  cbn [fst snd] in Hr, Hu. exists w'.
  unfold run_result, run_writes in Hr, Hu. rewrite Hf in Hr, Hu.
  assert (Hm : FS.makedirs OUTPUT_DIR (fs w)
               = inr (<[OUTPUT_DIR := Dir]> (fs w))).
  { unfold FS.makedirs, OUTPUT_DIR in *. cbn [FS.makedirs_from app].
    destruct (fs w !! ["posts"]) as [[|d]|] eqn:Hp.
    - now rewrite (insert_id _ _ _ Hp).
    - discriminate.
    - reflexivity. }
  rewrite Hm in Hr, Hu. subst r. split; [reflexivity|].
  rewrite Hu, (batch_writes_undated _ _ Hun), (left_id_L ∅ (∪)).
  unfold OUTPUT_DIR. cbn [dirs_from app]. rewrite <- insert_union_l.
  now rewrite (left_id_L ∅ (∪)).
Qed.

(* --------------------------------------------------------------------- *)
(** *** Timestamps and titles *)
(* --------------------------------------------------------------------- *)

Lemma replace_char_absent (c : ascii) (by_ s : string) :
  no_char c s = true -> PyStr.replace_char c by_ s = s.
Proof.
  induction s as [|a r IH]; [reflexivity|].
  cbn [no_char PyStr.replace_char]. intros H.
  apply andb_prop in H. destruct H as [Ha Hr].
  apply negb_true_iff in Ha. rewrite Ha. now rewrite (IH Hr).
Qed.

Lemma replace_char_app (c : ascii) (by_ a b : string) :
  PyStr.replace_char c by_ (a +:+ b)
  = PyStr.replace_char c by_ a +:+ PyStr.replace_char c by_ b.
Proof.
  induction a as [|x a IH]; [reflexivity|].
  rewrite str_app_cons. cbn [PyStr.replace_char].
  destruct (Ascii.eqb x c).
  - now rewrite IH, str_app_assoc.
  - now rewrite IH, str_app_cons.
Qed.

(** X11.  [parse_datetime] hands [fromisoformat] the string with every [Z]
    replaced by [+00:00]: a string without [Z] is parsed as it is, and a
    string with a single [Z] is parsed with [+00:00] in its place, so a
    trailing [Z] becomes the UTC offset. *)
Theorem parse_datetime_replaces_z :
  (forall s : string,
      no_char "Z" s = true -> parse_datetime s = fromisoformat s)
  /\ (forall a b : string,
         no_char "Z" a = true ->
         no_char "Z" b = true ->
         parse_datetime (a +:+ "Z" +:+ b) = fromisoformat (a +:+ "+00:00" +:+ b)).
Proof.
  unfold parse_datetime. split.
  - intros s Hs. now rewrite (replace_char_absent _ _ _ Hs).
  - intros a b Ha Hb. rewrite !replace_char_app.
    rewrite (replace_char_absent _ _ _ Ha), (replace_char_absent _ _ _ Hb).
    reflexivity.
Qed.








(* --------------------------------------------------------------------- *)
(** *** Posts that share a folder *)
(* --------------------------------------------------------------------- *)

(** X13.  When two posts resolve to the same folder and both are processed
    without error, the later one wins [index.md]; [comments.md] is the later
    post's when it has comments, and is left as the earlier post wrote it
    when the later post has none, so that the folder can end up with the
    later post's document next to the earlier post's comments. *)
Theorem shared_folder_last_writer_wins (e1 e2 : Entry) (output_base : path)
  (dt1 dt2 : datetime) (w w1 w2 : World) (r1 r2 : option path) :
  parse_datetime (post_published e1) = Some dt1 ->
  parse_datetime (post_published e2) = Some dt2 ->
  post_folder output_base dt2 e2 = post_folder output_base dt1 e1 ->
  process_post e1 output_base w = (Returned r1, w1) ->
  process_post e2 output_base w1 = (Returned r2, w2) ->
  let folder := post_folder output_base dt1 e1 in
  let comments1 := fetched_comments (extract_post_id e1) in
  let comments2 := fetched_comments (extract_post_id e2) in
  fs w2 !! index_path folder = Some (File (spec_post_document e2))
  /\ (comments2 <> [] ->
      fs w2 !! comments_path folder
      = Some (File (spec_comments_document comments2)))
  /\ (comments2 = [] ->
      fs w2 !! comments_path folder = fs w1 !! comments_path folder)
  /\ (comments2 = [] -> comments1 <> [] ->
      fs w2 !! comments_path folder
      = Some (File (spec_comments_document comments1))).
Proof.
  intros Hd1 Hd2 Hsame Hrun1 Hrun2. cbv zeta.
  assert (Hafter : forall (e : Entry) (dt : datetime) (u u' : World)
                          (r : option path),
             parse_datetime (post_published e) = Some dt ->
             process_post e output_base u = (Returned r, u') ->
             let f := post_folder output_base dt e in
             fs u' !! index_path f = Some (File (spec_post_document e))
             /\ (fetched_comments (extract_post_id e) <> [] ->
                 fs u' !! comments_path f
                 = Some (File (spec_comments_document
                                 (fetched_comments (extract_post_id e)))))
             /\ (fetched_comments (extract_post_id e) = [] ->
                 fs u' !! comments_path f = fs u !! comments_path f)).
  { intros e dt u u' r Hd Hrun. cbv zeta.
    rewrite (process_post_dated _ _ _ _ Hd) in Hrun.
    unfold dated_post_run in Hrun.
    set (f := post_folder output_base dt e) in *.
    assert (Hnone : truthy_opt (extract_post_id e) = false ->
                    fetched_comments (extract_post_id e) = []).
    { intros Hid. unfold fetched_comments. now rewrite Hid. }
    assert (Hne : index_path f <> comments_path f)
      by apply index_comments_distinct.
    destruct (FS.makedirs f (fs u)) as [x|t1] eqn:Hm; [discriminate|].
    destruct (FS.open_w (index_path f) t1) as [x|t1']; [discriminate|].
    destruct (truthy_opt (extract_post_id e)) eqn:Hid.
    - destruct (fetched_comments (extract_post_id e)) as [|c cs].
      + injection Hrun as _ <-. cbn [fs]. split; [apply lookup_insert_eq|].
        split; [congruence|]. intros _.
        now apply comments_path_untouched_by_index.
      + destruct (FS.open_w (comments_path f) _) as [x|t3]; [discriminate|].
        injection Hrun as _ <-. cbn [fs]. split.
        * rewrite lookup_insert_ne by (intros Heq; now apply Hne).
          apply lookup_insert_eq.
        * split; [intros _; apply lookup_insert_eq | discriminate].
    - rewrite (Hnone eq_refl). injection Hrun as _ <-. cbn [fs].
      split; [apply lookup_insert_eq|]. split; [congruence|]. intros _.
      now apply comments_path_untouched_by_index. }
  destruct (Hafter e1 dt1 w w1 r1 Hd1 Hrun1) as (_ & Hc1 & _).
  destruct (Hafter e2 dt2 w1 w2 r2 Hd2 Hrun2) as (Hi2 & Hc2 & Hn2).
  cbv zeta in *. rewrite Hsame in Hi2, Hc2, Hn2.
  split; [exact Hi2|]. split; [exact Hc2|]. split; [exact Hn2|].
  intros H2 H1. rewrite (Hn2 H2). exact (Hc1 H1).
Qed.

(* --------------------------------------------------------------------- *)
(** *** What a run never does to the file tree *)
(* --------------------------------------------------------------------- *)

Lemma dirs_from_key (rest : list string) :
  forall (pre q : path) (n : node),
    dirs_from pre rest !! q = Some n ->
    exists a b : list string, rest = a ++ b /\ a <> [] /\ q = pre ++ a.
Proof.
  induction rest as [|c rest IH]; intros pre q n H; cbn [dirs_from] in H.
  - rewrite lookup_empty in H. discriminate.
  - destruct (decide (pre ++ [c] = q)) as [<-|Hne].
    + exists [c], rest. repeat split. discriminate.
    + rewrite lookup_insert_ne in H by exact Hne.
      destruct (IH _ _ _ H) as (a & b & Hr & _ & Hq). subst rest q.
      exists (c :: a), b. rewrite <- app_assoc. repeat split. discriminate.
Qed.

Lemma dated_writes_key (entry : Entry) (output_base : path) (dt : datetime)
  (t : gmap (list string) node) (q : path) (n : node) :
  dated_writes entry output_base dt t !! q = Some n ->
  exists a b : list string,
    post_folder output_base dt entry ++ ["index.md"] = a ++ b
    /\ a <> []
    /\ (q = a \/ q = comments_path (post_folder output_base dt entry)).
Proof.
  unfold dated_writes.
  set (folder := post_folder output_base dt entry).
  assert (Hdirs : forall m, dirs_from [] folder !! q = Some m ->
            exists a b : list string,
              folder ++ ["index.md"] = a ++ b /\ a <> [] /\ (q = a \/ q = comments_path folder)).
  { intros m Hm. destruct (dirs_from_key _ _ _ _ Hm) as (a & b & Hf & Ha & Hq).
    exists a, (b ++ ["index.md"]). rewrite Hf, <- app_assoc.
    split; [reflexivity|]. split; [exact Ha|]. now left. }
  assert (Hidx : forall m,
            <[index_path folder := File (spec_post_document entry)]>
              (dirs_from [] folder) !! q = Some m ->
            exists a b : list string,
              folder ++ ["index.md"] = a ++ b /\ a <> [] /\ (q = a \/ q = comments_path folder)).
  { intros m Hm. destruct (decide (index_path folder = q)) as [<-|Hne].
    - exists (folder ++ ["index.md"]), []. rewrite app_nil_r.
      split; [reflexivity|]. split; [now destruct folder|]. now left.
    - rewrite lookup_insert_ne in Hm by exact Hne. exact (Hdirs _ Hm). }
  destruct (FS.makedirs folder t) as [e|t1];
    [rewrite lookup_empty; discriminate|].
  destruct (is_dir (t !! index_path folder)); [apply Hdirs|].
  destruct (fetched_comments (extract_post_id entry)) as [|c cs]; [apply Hidx|].
  destruct (is_dir (t !! comments_path folder)); [apply Hidx|].
  destruct (decide (comments_path folder = q)) as [<-|Hne].
  - intros _. exists (folder ++ ["index.md"]), []. rewrite app_nil_r.
    split; [reflexivity|]. split; [now destruct folder|]. now right.
  - rewrite lookup_insert_ne by exact Hne. apply Hidx.
Qed.

Lemma run_writes_key (posts : list Entry) (t : gmap (list string) node)
  (q : path) (n : node) :
  run_writes posts t !! q = Some n ->
  exists rest : list string, q = "posts" :: rest.
Proof.
  unfold run_writes. destruct posts as [|entry rest];
    [rewrite lookup_empty; discriminate|].
  destruct (FS.makedirs OUTPUT_DIR t) as [e|t1];
    [rewrite lookup_empty; discriminate|].
  intros H. apply lookup_union_Some_raw in H. destruct H as [H|[_ H]].
  - destruct (batch_writes_lookup _ _ _ _ H) as (e & _ & He).
    unfold post_writes in He.
    destruct (parse_datetime (post_published e)) as [dt|];
      [|rewrite lookup_empty in He; discriminate].
    destruct (dated_writes_key _ _ _ _ _ _ He) as (a & b & Hf & Ha & [Hq|Hq]);
      subst q.
    + unfold post_folder, os_path_join, OUTPUT_DIR in Hf. cbn [app] in Hf.
      destruct a as [|x a]; [congruence|]. injection Hf as <- _. now exists a.
    + unfold comments_path, post_folder, os_path_join, OUTPUT_DIR. cbn [app].
      eexists. reflexivity.
  - destruct (dirs_from_key _ _ _ _ H) as (a & b & Hf & Ha & Hq). subst q.
    unfold OUTPUT_DIR in Hf. destruct a as [|x a]; [congruence|].
    injection Hf as <- _. cbn [app]. now exists a.
Qed.

Lemma main_tree (fuel : nat) (w w' : World) (r : Result pyval) :
  main fuel w = Some (r, w') ->
  exists posts : list Entry,
    fs w' = run_writes posts (fs w) ∪ fs w
    /\ same_shape 3 (fs w) (fs w').
Proof.
  rewrite main_walk.
  destruct (walk fuel (Some start_url) []) as [[[posts|e] evs]|];
    [| |discriminate].
  - intros H. injection H as H.
    destruct (main_after_fetch_tree posts
                (mk_world (fs w)
                   ((log w ++ [EPrint "Fetching all posts from the blog..."])
                    ++ evs))) as (_ & Hu & Hs).
    rewrite H in Hu, Hs. cbn [snd fs] in Hu, Hs. now exists posts.
  - intros H. injection H as _ <-. exists []. cbn [fs run_writes].
    rewrite (left_id_L ∅ (∪)). split; [reflexivity | apply same_shape_refl].
Qed.

(** X14.  A run changes the file tree only below the output root: every
    path at which the tree after [main] differs from the tree before it
    begins with [posts]. *)
Theorem main_writes_only_below_the_output_root (fuel : nat) (w w' : World)
  (r : Result pyval) (q : path) :
  main fuel w = Some (r, w') ->
  fs w' !! q <> fs w !! q ->
  exists rest : list string, q = "posts" :: rest.
Proof.
  intros Hrun Hq. destruct (main_tree _ _ _ _ Hrun) as (posts & Hu & _).
  rewrite Hu, lookup_union in Hq.
  destruct (run_writes posts (fs w) !! q) as [n|] eqn:Hw.
  - exact (run_writes_key _ _ _ _ Hw).
  - exfalso. apply Hq. now destruct (fs w !! q).
Qed.

(** X15.  A run never removes anything and never replaces a directory:
    every path present before [main] is present after it, and every
    directory is still a directory. *)
Theorem main_never_deletes (fuel : nat) (w w' : World) (r : Result pyval)
  (q : path) (n : node) :
  main fuel w = Some (r, w') ->
  fs w !! q = Some n ->
  (exists n' : node, fs w' !! q = Some n')
  /\ (n = Dir -> fs w' !! q = Some Dir).
Proof.
  intros Hrun Hq. destruct (main_tree _ _ _ _ Hrun) as (posts & Hu & Hs).
  assert (Hsome : exists n' : node, fs w' !! q = Some n').
  { rewrite Hu, lookup_union, Hq.
    destruct (run_writes posts (fs w) !! q) as [m|]; eexists; reflexivity. }
  split; [exact Hsome|]. intros ->.
  destruct Hsome as [n' Hn']. destruct (Hs q) as [Hfile Hdir].
  rewrite Hq, Hn' in Hfile, Hdir. rewrite Hn'.
  destruct (le_lt_dec (length q) 3) as [Hle|Hlt].
  - specialize (Hfile Hle). destruct n'; [reflexivity | discriminate].
  - specialize (Hdir Hlt). destruct n'; [reflexivity | discriminate].
Qed.

End Scraper.

(* ===================================================================== *)
(** ** The properties on the sample feed *)
(* ===================================================================== *)


Lemma undated_post_is_skipped_witness :
  exists w' : World,
    process_post Sample.blog Sample.fromisoformat Sample.md Sample.slugify
      Sample.undated_post OUTPUT_DIR Sample.w0
    = (Returned None, w')
    /\ fs w' = fs Sample.w0
    /\ log w' = log Sample.w0
                ++ [EPrint ("  Skipping post with invalid date: "
                            +:+ post_published Sample.undated_post)].
Proof.
  apply (undated_post_is_skipped Sample.blog Sample.fromisoformat Sample.md
           Sample.slugify Sample.undated_post OUTPUT_DIR Sample.w0).
  vm_compute. reflexivity.
Defined.

Lemma post_document_contents_witness :
  fs (snd (process_post Sample.blog Sample.fromisoformat Sample.md Sample.slugify
             Sample.post1 OUTPUT_DIR Sample.w0))
  !! ["posts"; "2009"; "2009-03-07-21-05-Hello-World"; "index.md"]
  = Some (File ("# Hello World" +:+ LF +:+ LF +:+ "md(<p>Hi</p>)" +:+ LF)).
Proof.
  apply (proj2 (proj2 (proj2 (post_document_contents Sample.blog
                                Sample.fromisoformat Sample.md Sample.slugify
                                Sample.post1)))
           OUTPUT_DIR (mk_datetime 2009 3 7 21 5 0 (Some 0%Z)) Sample.w0
           (snd (process_post Sample.blog Sample.fromisoformat Sample.md
                   Sample.slugify Sample.post1 OUTPUT_DIR Sample.w0))
           (Some ["posts"; "2009"; "2009-03-07-21-05-Hello-World"])).
  - vm_compute. reflexivity.
  - vm_compute. reflexivity.
Defined.

Lemma comments_document_contents_witness :
  fs (snd (process_post Sample.blog Sample.fromisoformat Sample.md Sample.slugify
             Sample.post1 OUTPUT_DIR Sample.w0))
  !! ["posts"; "2009"; "2009-03-07-21-05-Hello-World"; "comments.md"]
  = Some (File ("# Comments" +:+ LF +:+ LF
                +:+ "## Ann - 2010-01-02 03:04" +:+ LF +:+ LF
                +:+ "md(<b>first</b>)" +:+ LF +:+ LF
                +:+ "---" +:+ LF +:+ LF
                +:+ "## Anonymous - garbage" +:+ LF +:+ LF
                +:+ "md(  second )" +:+ LF +:+ LF)).
Proof.
  pose proof
    (comments_document_contents Sample.blog Sample.fromisoformat Sample.md
       Sample.slugify Sample.post1 OUTPUT_DIR
       (mk_datetime 2009 3 7 21 5 0 (Some 0%Z)) Sample.w0
       (snd (process_post Sample.blog Sample.fromisoformat Sample.md
               Sample.slugify Sample.post1 OUTPUT_DIR Sample.w0))
       (Returned (Some ["posts"; "2009"; "2009-03-07-21-05-Hello-World"]))
       ltac:(vm_compute; reflexivity) ltac:(vm_compute; reflexivity)) as H.
  cbv zeta in H.
  change (fetched_comments Sample.blog (extract_post_id Sample.post1))
    with [Sample.comment1; Sample.comment2] in H.
  exact (H _ eq_refl).
Defined.

Lemma comment_date_falls_back_to_raw_string_witness :
  format_comment_date Sample.fromisoformat "garbage" = "garbage"
  /\ fs (snd (process_post Sample.blog Sample.fromisoformat Sample.md
                Sample.slugify Sample.post1 OUTPUT_DIR Sample.w0))
     !! ["posts"; "2009"; "2009-03-07-21-05-Hello-World"; "comments.md"]
     = Some (File ("# Comments" +:+ LF +:+ LF
                   +:+ "## Ann - 2010-01-02 03:04" +:+ LF +:+ LF
                   +:+ "md(<b>first</b>)" +:+ LF +:+ LF
                   +:+ "---" +:+ LF +:+ LF
                   +:+ "## Anonymous - garbage" +:+ LF +:+ LF
                   +:+ "md(  second )" +:+ LF +:+ LF)).
Proof.
  pose proof
    (comment_date_falls_back_to_raw_string Sample.blog Sample.fromisoformat
       Sample.md Sample.slugify Sample.post1 OUTPUT_DIR
       (mk_datetime 2009 3 7 21 5 0 (Some 0%Z)) Sample.w0
       (snd (process_post Sample.blog Sample.fromisoformat Sample.md
               Sample.slugify Sample.post1 OUTPUT_DIR Sample.w0))
       (Some ["posts"; "2009"; "2009-03-07-21-05-Hello-World"])
       [Sample.comment1] [] Sample.comment2
       ltac:(vm_compute; reflexivity) ltac:(vm_compute; reflexivity)
       ltac:(vm_compute; reflexivity)) as H.
  cbv zeta in H. destruct H as [Hdate Hdoc]. split.
  - exact Hdate.
  - refine (eq_trans Hdoc _). vm_compute. reflexivity.
Defined.

(** C5 as stated fails: a comment feed flagged as malformed ([bozo]) from
    which an entry was salvaged is not answered with the empty list. *)
Lemma fetch_comments_returns_salvaged_entries :
  (exists feed : Feed,
      Sample.salvaged_comments (comments_url (Some "42")) = inr feed
      /\ feed_bozo feed = true)
  /\ fst (fetch_comments Sample.salvaged_comments (Some "42") Sample.w0)
     = Returned [Sample.comment1]
  /\ fst (fetch_comments Sample.salvaged_comments (Some "42") Sample.w0)
     <> Returned [].
Proof.
  split; [eexists; split; reflexivity|].
  split; [reflexivity | discriminate].
Qed.

Lemma three_pages_chain :
  feed_chain Sample.three_pages start_url [Sample.page1; Sample.page2; Sample.page3].
Proof.
  eapply chain_next; [reflexivity | reflexivity | reflexivity | reflexivity |].
  eapply chain_next; [reflexivity | reflexivity | reflexivity | reflexivity |].
  apply chain_last; [reflexivity | reflexivity | right; reflexivity].
Defined.

Lemma fetch_all_posts_walks_every_page_witness :
  exists evs : list event,
    fetch_all_posts Sample.three_pages 3 Sample.w0
    = Some (Returned (concat (map feed_entries
                                [Sample.page1; Sample.page2; Sample.page3])),
            mk_world (fs Sample.w0) (log Sample.w0 ++ evs))
    /\ List.filter is_request evs
       = spec_requests start_url [Sample.page1; Sample.page2; Sample.page3]
    /\ length (List.filter is_sleep evs) = 3 - 1.
Proof.
  apply (proj1 (fetch_all_posts_walks_every_page Sample.three_pages
                  [Sample.page1; Sample.page2; Sample.page3] 3 Sample.w0
                  three_pages_chain ltac:(cbn; lia))).
Defined.

(** The three-page feed of sizes 25, 25 and 10: sixty entries in feed order,
    three requests, two sleeps. *)
Example three_pages_sixty_entries_two_delays :
  match fetch_all_posts Sample.three_pages 3 Sample.w0 with
  | Some (Returned posts, w') =>
      posts = map Sample.numbered (seq 0 60)
      /\ length posts = 60
      /\ List.filter is_request (log w')
         = [EFetch start_url; ESleep REQUEST_DELAY; EFetch "page2";
            ESleep REQUEST_DELAY; EFetch "page3"]
  | _ => False
  end.
Proof. vm_compute. repeat split. Qed.

Lemma main_returns_none_witness :
  main Sample.empty_blog Sample.fromisoformat Sample.md Sample.slugify 1 Sample.w0
  = Some (Returned PyNone,
          mk_world ∅
            [EPrint "Fetching all posts from the blog...";
             EPrint ("Fetching: " +:+ start_url);
             EFetch start_url;
             EPrint "  Found 0 entries (total: 0)";
             EPrint (LF +:+ "Total posts found: 0");
             EPrint "No posts found. Exiting."]).
Proof.
  apply (proj2 (main_returns_none Sample.empty_blog Sample.fromisoformat
                  Sample.md Sample.slugify 1 Sample.w0)
           (mk_world ∅
              [EPrint "Fetching all posts from the blog...";
               EPrint ("Fetching: " +:+ start_url);
               EFetch start_url;
               EPrint "  Found 0 entries (total: 0)"])).
  vm_compute. reflexivity.
Defined.

(** C8 as stated fails: on the sample blog one post is written, and [main]
    returns [None], not the count 1. *)
Lemma main_returns_no_count :
  exists w' : World,
    main Sample.blog Sample.fromisoformat Sample.md Sample.slugify 1 Sample.w0
    = Some (Returned PyNone, w')
    /\ fs w' !! ["posts"; "2009"; "2009-03-07-21-05-Hello-World"; "index.md"]
       = Some (File ("# Hello World" +:+ LF +:+ LF +:+ "md(<p>Hi</p>)" +:+ LF))
    /\ PyNone <> PyInt 1.
Proof.
  eexists. split; [vm_compute; reflexivity|].
  split; [vm_compute; reflexivity | discriminate].
Qed.

Lemma second_run_changes_nothing_witness :
  exists (r1 : Result pyval) (w1 w2 : World),
    main Sample.blog Sample.fromisoformat Sample.md Sample.slugify 1 Sample.w0
    = Some (r1, w1)
    /\ main Sample.blog Sample.fromisoformat Sample.md Sample.slugify 1 w1
       = Some (r1, w2)
    /\ fs w2 = fs w1
    /\ fs w2 !! ["posts"; "2009"; "2009-03-07-21-05-Hello-World"; "index.md"]
       = Some (File ("# Hello World" +:+ LF +:+ LF +:+ "md(<p>Hi</p>)" +:+ LF)).
Proof.
  destruct (main Sample.blog Sample.fromisoformat Sample.md Sample.slugify 1
              Sample.w0) as [[r1 w1]|] eqn:Hrun; [|vm_compute in Hrun; discriminate].
  destruct (second_run_changes_nothing Sample.blog Sample.fromisoformat
              Sample.md Sample.slugify 1 Sample.w0 w1 r1 Hrun)
    as (w2 & H2 & Hfs & _).
  exists r1, w1, w2. split; [reflexivity|]. split; [exact H2|].
  split; [exact Hfs|].
  rewrite Hfs. vm_compute in Hrun. injection Hrun as _ <-.
  vm_compute. reflexivity.
Defined.

(** A failing post followed by a good one: with [posts/2009] a regular
    file, the first post raises, the error is printed, and the second post
    is still written. *)
Example failing_post_then_written_post :
  match main Sample.two_posts Sample.fromisoformat Sample.md Sample.slugify 1
          Sample.w_blocked with
  | Some (Returned PyNone, w') =>
      In (EPrint ("  Error: [Errno 20] Not a directory: "
                  +:+ "'posts/2009/2009-03-07-21-05-Hello-World'"))
        (log w')
      /\ fs w' !! ["posts"; "2010"; "2010-01-02-03-04-Later"; "index.md"]
         = Some (File ("# Later" +:+ LF +:+ LF +:+ "md(<i>bye</i>)" +:+ LF))
      /\ fs w' !! ["posts"; "2009"] = Some (File "x")
  | _ => False
  end.
Proof.
  vm_compute. split; [|split; reflexivity].
  do 7 right. left. reflexivity.
Qed.

(** Characters outside ASCII: the no-break space is trimmed like a space,
    [\d+] runs on through a digit of another script, a slice counts
    characters and not bytes, a title of whitespace alone gets no slug, and a
    year before 1000 is printed as it is. *)
Example characters_outside_ascii :
  PyStr.strip (Sample.nbsp +:+ " Caf" +:+ Sample.e_acute +:+ " " +:+ Sample.nbsp)
  = "Caf" +:+ Sample.e_acute
  /\ re_search_post ("post-12" +:+ Sample.arabic_indic_three +:+ "x")
     = Some ("12" +:+ Sample.arabic_indic_three)
  /\ PyStr.slice_to 2 (Sample.e_acute +:+ "tude") = Sample.e_acute +:+ "t"
  /\ generate_folder_name Sample.slugify
       (mk_datetime 2009 3 7 21 5 0 (Some 0%Z)) Sample.nbsp
     = "2009-03-07-21-05"
  /\ strftime (mk_datetime 999 1 2 3 4 0 None) "%Y-%m-%d-%H-%M"
     = "999-01-02-03-04".
Proof. vm_compute. repeat split. Qed.

Lemma extract_post_id_is_a_digit_run_witness :
  truthy_opt (Some "42") = true
  /\ all_digits "42" = true
  /\ exists pre rest : string,
       default "" (entry_id Sample.post1) = pre +:+ "post-" +:+ "42" +:+ rest
       /\ starts_with_digit rest = false.
Proof.
  apply (proj2 (extract_post_id_is_a_digit_run Sample.post1) "42").
  vm_compute. reflexivity.
Defined.

Lemma extract_post_id_of_blogger_id_witness :
  extract_post_id Sample.post1 = Some "42".
Proof.
  apply (extract_post_id_of_blogger_id Sample.post1
           "tag:blogger.com,1999:blog-1." "42" "").
  - reflexivity.
  - reflexivity.
  - discriminate.
  - reflexivity.
  - reflexivity.
  - reflexivity.
Defined.

Lemma next_url_is_first_next_link_witness :
  next_url Sample.page1 = Some "page2".
Proof.
  apply (next_url_is_first_next_link Sample.page1
           [mk_link (Some "self") (Some Sample.start_url)] []
           (mk_link (Some "next") (Some "page2"))).
  - reflexivity.
  - intros x [<-|[]]. discriminate.
  - reflexivity.
Defined.

Lemma self_linking_feed_never_ends_witness :
  fetch_all_posts Sample.looping 1000 Sample.w0 = None.
Proof.
  apply (self_linking_feed_never_ends Sample.looping
           (mk_feed false "" [Sample.post1]
              (Some [mk_link (Some "next") (Some Sample.start_url)]))
           ltac:(reflexivity) ltac:(reflexivity) ltac:(reflexivity)
           1000 Sample.w0).
Defined.

Lemma page_fetch_exception_escapes_main_witness :
  exists w2 : World,
    main Sample.broken_second_page Sample.fromisoformat Sample.md
      Sample.slugify 2 Sample.w0
    = Some (Raised (FeedparserError "connection reset"), w2)
    /\ fs w2 = fs Sample.w0.
Proof.
  eexists.
  apply (page_fetch_exception_escapes_main Sample.broken_second_page
           Sample.fromisoformat Sample.md Sample.slugify 2 Sample.w0).
  vm_compute. reflexivity.
Defined.

Lemma failed_first_fetch_looks_like_an_empty_blog_witness :
  main Sample.failed_first_page Sample.fromisoformat Sample.md Sample.slugify
    1 Sample.w0
  = Some (Returned PyNone,
          mk_world ∅
            [EPrint "Fetching all posts from the blog...";
             EPrint ("Fetching: " +:+ start_url);
             EFetch start_url;
             EPrint "Error fetching feed: timed out";
             EPrint (LF +:+ "Total posts found: 0");
             EPrint "No posts found. Exiting."]).
Proof.
  apply (failed_first_fetch_looks_like_an_empty_blog Sample.failed_first_page
           Sample.fromisoformat Sample.md Sample.slugify
           (mk_feed true "timed out" [] None) 0 Sample.w0).
  - reflexivity.
  - reflexivity.
  - reflexivity.
Defined.

Lemma failed_comment_fetch_leaves_the_post_as_without_id_witness :
  let run := process_post Sample.unreachable_comments Sample.fromisoformat
               Sample.md Sample.slugify Sample.post1 OUTPUT_DIR Sample.w0 in
  let plain := process_post Sample.unreachable_comments Sample.fromisoformat
                 Sample.md Sample.slugify (without_id Sample.post1) OUTPUT_DIR
                 Sample.w0 in
  fst run = fst plain
  /\ fs (snd run) = fs (snd plain)
  /\ log (snd run)
     = log (snd plain)
       ++ [ESleep REQUEST_DELAY;
           EFetch "https://theguitarman.blogspot.com/feeds/42/comments/default";
           EPrint "  Error fetching comments for 42: connection refused"].
Proof.
  cbv zeta.
  destruct (failed_comment_fetch_leaves_the_post_as_without_id
              Sample.unreachable_comments Sample.fromisoformat Sample.md
              Sample.slugify Sample.post1 OUTPUT_DIR Sample.w0
              (FeedparserError "connection refused")
              ltac:(reflexivity) ltac:(reflexivity)) as (Hres & Hfs & Hlog).
  split; [exact Hres|]. split; [exact Hfs|].
  rewrite Hlog. vm_compute. reflexivity.
Defined.

Lemma comments_are_requested_after_the_index_is_written_witness :
  exists evs : list event,
    log (snd (process_post Sample.blog Sample.fromisoformat Sample.md
                Sample.slugify Sample.post1 OUTPUT_DIR Sample.w0))
    = log Sample.w0 ++ evs
    /\ (List.filter is_request evs = []
        \/ (List.filter is_request evs
            = [ESleep REQUEST_DELAY;
               EFetch (comments_url (extract_post_id Sample.post1))]
            /\ truthy_opt (extract_post_id Sample.post1) = true
            /\ exists dt : datetime,
                 parse_datetime Sample.fromisoformat
                   (post_published Sample.post1) = Some dt
                 /\ fs (snd (process_post Sample.blog Sample.fromisoformat
                               Sample.md Sample.slugify Sample.post1
                               OUTPUT_DIR Sample.w0))
                    !! index_path (post_folder Sample.slugify OUTPUT_DIR dt
                                     Sample.post1)
                    = Some (File (spec_post_document Sample.md Sample.post1)))).
Proof.
  apply (comments_are_requested_after_the_index_is_written Sample.blog
           Sample.fromisoformat Sample.md Sample.slugify Sample.post1
           OUTPUT_DIR Sample.w0
           (snd (process_post Sample.blog Sample.fromisoformat Sample.md
                   Sample.slugify Sample.post1 OUTPUT_DIR Sample.w0))
           (fst (process_post Sample.blog Sample.fromisoformat Sample.md
                   Sample.slugify Sample.post1 OUTPUT_DIR Sample.w0))).
  vm_compute. reflexivity.
Defined.

Lemma output_root_a_file_stops_main_witness :
  main Sample.blog Sample.fromisoformat Sample.md Sample.slugify 1
    Sample.w_root_blocked
  = Some (Raised (FileExistsError OUTPUT_DIR),
          mk_world (fs Sample.w_root_blocked)
            ([EPrint "Fetching all posts from the blog...";
              EPrint ("Fetching: " +:+ start_url);
              EFetch start_url;
              EPrint "  Found 2 entries (total: 2)"]
             ++ [EPrint (LF +:+ "Total posts found: "
                         +:+ PyStr.of_nat
                               (length [Sample.post1; Sample.undated_post]))])).
Proof.
  apply (output_root_a_file_stops_main Sample.blog Sample.fromisoformat
           Sample.md Sample.slugify 1 Sample.w_root_blocked
           (mk_world (fs Sample.w_root_blocked)
              [EPrint "Fetching all posts from the blog...";
               EPrint ("Fetching: " +:+ start_url);
               EFetch start_url;
               EPrint "  Found 2 entries (total: 2)"])
           Sample.post1 [Sample.undated_post] "x").
  - reflexivity.
  - vm_compute. reflexivity.
Defined.

Lemma undated_feed_creates_only_the_output_root_witness :
  exists w' : World,
    main Sample.undated_blog Sample.fromisoformat Sample.md Sample.slugify 1
      Sample.w0
    = Some (Returned PyNone, w')
    /\ fs w' = <[OUTPUT_DIR := Dir]> (fs Sample.w0).
Proof.
  apply (undated_feed_creates_only_the_output_root Sample.undated_blog
           Sample.fromisoformat Sample.md Sample.slugify 1 Sample.w0
           (mk_world ∅
              [EPrint "Fetching all posts from the blog...";
               EPrint ("Fetching: " +:+ start_url);
               EFetch start_url;
               EPrint "  Found 1 entries (total: 1)"])
           Sample.undated_post []).
  - vm_compute. reflexivity.
  - intros e [<-|[]]. reflexivity.
  - reflexivity.
Defined.

Lemma parse_datetime_replaces_z_witness :
  parse_datetime Sample.fromisoformat ("2009-03-07T21:05:00" +:+ "Z" +:+ "")
  = Sample.fromisoformat ("2009-03-07T21:05:00" +:+ "+00:00" +:+ "").
Proof.
  apply (proj2 (parse_datetime_replaces_z Sample.fromisoformat)
           "2009-03-07T21:05:00" "").
  - reflexivity.
  - reflexivity.
Defined.

Lemma shared_folder_last_writer_wins_witness :
  let w1 := snd (process_post Sample.blog Sample.fromisoformat Sample.md
                   Sample.slugify Sample.post1 OUTPUT_DIR Sample.w0) in
  let w2 := snd (process_post Sample.blog Sample.fromisoformat Sample.md
                   Sample.slugify Sample.post1_again OUTPUT_DIR w1) in
  let folder := post_folder Sample.slugify OUTPUT_DIR
                  (mk_datetime 2009 3 7 21 5 0 (Some 0%Z)) Sample.post1 in
  fs w2 !! index_path folder
  = Some (File (spec_post_document Sample.md Sample.post1_again))
  /\ fs w2 !! comments_path folder
     = Some (File (spec_comments_document Sample.fromisoformat Sample.md
                     (fetched_comments Sample.blog
                        (extract_post_id Sample.post1)))).
Proof.
  cbv zeta.
  pose proof
    (shared_folder_last_writer_wins Sample.blog Sample.fromisoformat Sample.md
       Sample.slugify Sample.post1 Sample.post1_again OUTPUT_DIR
       (mk_datetime 2009 3 7 21 5 0 (Some 0%Z))
       (mk_datetime 2009 3 7 21 5 0 (Some 0%Z))
       Sample.w0
       (snd (process_post Sample.blog Sample.fromisoformat Sample.md
               Sample.slugify Sample.post1 OUTPUT_DIR Sample.w0))
       (snd (process_post Sample.blog Sample.fromisoformat Sample.md
               Sample.slugify Sample.post1_again OUTPUT_DIR
               (snd (process_post Sample.blog Sample.fromisoformat Sample.md
                       Sample.slugify Sample.post1 OUTPUT_DIR Sample.w0))))
       (Some ["posts"; "2009"; "2009-03-07-21-05-Hello-World"])
       (Some ["posts"; "2009"; "2009-03-07-21-05-Hello-World"])
       ltac:(vm_compute; reflexivity) ltac:(vm_compute; reflexivity)
       ltac:(vm_compute; reflexivity) ltac:(vm_compute; reflexivity)
       ltac:(vm_compute; reflexivity)) as H.
  cbv zeta in H. destruct H as (Hi & _ & _ & Hc).
  split; [exact Hi|]. apply Hc.
  - vm_compute. reflexivity.
  - vm_compute. discriminate.
Defined.

Lemma main_writes_only_below_the_output_root_witness :
  exists rest : list string, ["posts"; "2009"] = "posts" :: rest.
Proof.
  destruct (main Sample.blog Sample.fromisoformat Sample.md Sample.slugify 1
              Sample.w0) as [[r w']|] eqn:H; [|vm_compute in H; discriminate].
  pose proof (main_writes_only_below_the_output_root Sample.blog
                Sample.fromisoformat Sample.md Sample.slugify 1 Sample.w0 w' r
                ["posts"; "2009"] H) as T.
  apply T. vm_compute in H. injection H as _ <-. vm_compute. discriminate.
Defined.

Lemma main_never_deletes_witness :
  exists (r : Result pyval) (w' : World),
    main Sample.two_posts Sample.fromisoformat Sample.md Sample.slugify 1
      Sample.w_blocked
    = Some (r, w')
    /\ (exists n' : node, fs w' !! ["posts"; "2009"] = Some n')
    /\ (File "x" = Dir -> fs w' !! ["posts"; "2009"] = Some Dir).
Proof.
  destruct (main Sample.two_posts Sample.fromisoformat Sample.md Sample.slugify
              1 Sample.w_blocked) as [[r w']|] eqn:H;
    [|vm_compute in H; discriminate].
  exists r, w'. split; [reflexivity|].
  apply (main_never_deletes Sample.two_posts Sample.fromisoformat Sample.md
           Sample.slugify 1 Sample.w_blocked w' r ["posts"; "2009"] (File "x") H).
  reflexivity.
Defined.
